(** * dedupe.api: a shallow embedding of the matching interface

    The development follows [src/dedupe/api.py].  Python objects with
    mutable attributes become records threaded through the methods,
    exceptions become the [Raise] case of a small error monad, the
    sqlite3 connection becomes a pair of table snapshots (committed and
    working), and the modules the file imports but that are not part of
    it ([dedupe.blocking], [dedupe.core], [dedupe.clustering],
    [dedupe.labeler], [pickle]) become type classes. *)

From Stdlib Require Import ZArith QArith Lia Permutation.
From stdpp Require Import gmap strings list fin_maps sorting.

Local Open Scope Z_scope.

(** ** Python values, exceptions and the error monad *)

Module Py.

(** The argument of a [KeyError]: a record id or a field name. *)
Inductive key :=
| KInt (z : Z)
| KStr (s : string).

Inductive exn :=
| AssertionError (msg : string)
| KeyError (k : key)
| AttributeError (msg : string)
| ValueError (msg : string)
| IndexError (msg : string)
| EOFError
| UnpicklingError (msg : string)
| OperationalError (msg : string)
| SettingsFileLoadingException (msg : string).

Inductive result (A : Type) :=
| Ok (a : A)
| Raise (e : exn).
Arguments Ok {A} a.
Arguments Raise {A} e.

Global Instance result_ret : MRet result := λ A a, Ok a.

Global Instance result_bind : MBind result := λ A B k r,
  match r with
  | Ok a => k a
  | Raise e => Raise e
  end.

(** [assert cond, msg] *)
Definition py_assert (cond : bool) (msg : string) : result unit :=
  if cond then Ok tt else Raise (AssertionError msg).

(** Truth value of an object, as tested by [assert x] and [if x]. *)
Class Truthy (A : Type) := truth : A → bool.
Global Hint Mode Truthy ! : typeclass_instances.

(** An attribute holding [None] is falsy; otherwise the object decides. *)
Global Instance option_truthy {A} `{Truthy A} : Truthy (option A) :=
  λ o, match o with Some a => truth a | None => false end.

Fixpoint mapM {A B} (f : A → result B) (l : list A) : result (list B) :=
  match l with
  | [] => Ok []
  | x :: l' =>
      y ← f x; ys ← mapM f l'; Ok (y :: ys)
  end.

(** [self.name], for an attribute that may not have been assigned. *)
Definition getattr {A} (attr : option A) (name : string) : result A :=
  match attr with
  | Some a => Ok a
  | None => Raise (AttributeError name)
  end.

(** A method of an object with state [S]: it returns or raises, and in
    both cases leaves the object in the state it had reached. *)
Definition Method (S A : Type) : Type := S → result A * S.

Global Instance method_ret {S} : MRet (Method S) := λ A a s, (Ok a, s).

Global Instance method_bind {S} : MBind (Method S) := λ A B k m s,
  match m s with
  | (Ok a, s') => k a s'
  | (Raise e, s') => (Raise e, s')
  end.

Definition get {S} : Method S S := λ s, (Ok s, s).
Definition put {S} (s : S) : Method S unit := λ _, (Ok tt, s).
Definition lift {S A} (r : result A) : Method S A := λ s, (r, s).

(** [for x in l: body x] *)
Fixpoint for_each {S A} (l : list A) (body : A → Method S unit) :
    Method S unit :=
  match l with
  | [] => mret tt
  | x :: l' => _ ← body x; for_each l' body
  end.

End Py.
Export Py.

(** ** Records and datasets *)

Definition RecordID := Z.
Definition BlockKey := string.

(** A record is a dictionary from field names to values. *)
Abbreviation RecordDict := (gmap string string).

(** [Data]: a Python dict from record ids to records, kept in insertion
    order (the order [items()], [keys()] and [values()] iterate in). *)
Definition Data := list (RecordID * RecordDict).

Definition keys (data : Data) : list RecordID := data.*1.
Definition values (data : Data) : list RecordDict := data.*2.

(** [data[k]] *)
Fixpoint getitem (data : Data) (k : RecordID) : result RecordDict :=
  match data with
  | [] => Raise (KeyError (KInt k))
  | (k', r) :: data' => if decide (k' = k) then Ok r else getitem data' k
  end.

Definition RecordPair : Type := (RecordID * RecordDict) * (RecordID * RecordDict).

Definition pair_ids (p : RecordPair) : RecordID * RecordID := (p.1.1, p.2.1).

(** ** The sqlite3 tables *)

Module Sql.

(** A row of [blocking_map] / [indexed_records]. *)
Definition Posting : Type := BlockKey * RecordID.

Definition Table := list Posting.

(** [FROM t1 a INNER JOIN t2 b USING (block_key) WHERE cond a b],
    projected on [a.record_id, b.record_id]. *)
Definition join_using_block_key (cond : RecordID → RecordID → bool)
    (t1 t2 : Table) : list (RecordID * RecordID) :=
  a ← t1; b ← t2;
  if bool_decide (a.1 = b.1) && cond a.2 b.2 then [(a.2, b.2)] else [].

(** [SELECT DISTINCT] *)
Definition distinct (rows : list (RecordID * RecordID)) :
    list (RecordID * RecordID) :=
  remove_dups rows.

(** [REPLACE INTO t VALUES (?, ?)] under [UNIQUE(block_key, record_id)]:
    the conflicting row, if any, is deleted and the new row appended. *)
Definition replace_into (t : Table) (row : Posting) : Table :=
  filter (λ r, r ≠ row) t ++ [row].

(** [DELETE FROM t WHERE record_id = ?] *)
Definition delete_record_id (t : Table) (k : RecordID) : Table :=
  filter (λ r, r.2 ≠ k) t.

(** Stable insertion sort, used for [ORDER BY] and for sorting scores. *)
Section Sort.
Context {A : Type} (le : A → A → bool).

Fixpoint insert_sorted (x : A) (l : list A) : list A :=
  match l with
  | [] => [x]
  | y :: l' => if le x y then x :: y :: l' else y :: insert_sorted x l'
  end.

Definition sort_by (l : list A) : list A := foldr insert_sorted [] l.
End Sort.

End Sql.

(** ** dedupe.blocking *)

(** Modelled from the spec: [blocking.Blocker], the class that owns the
    predicate set.  Section 2 gives its contract as "record → set of block
    keys"; [blocker_apply] is that map for one record ([target] selects the
    canonical side for index predicates).  The index-maintenance methods
    only change the blocker's own state. *)
Class Blocking (Obj Blocker : Type) := {
  Blocker_new : Obj → Blocker;
  blocker_truth :: Truthy Blocker;
  blocker_apply : Blocker → bool → RecordDict → list BlockKey;
  indexAll : Blocker → Data → Blocker;
  resetIndices : Blocker → Blocker;
  index_fields : Blocker → list string;
  blocker_unindex : Blocker → gset string → string → Blocker
}.

(** Modelled from the spec: [Blocker.__call__].  Section 4.1: "for each
    record, apply every full predicate to obtain its set of block keys;
    insert (key, record_id) postings". *)
Definition blocker_call `{Blocking Obj Blocker}
    (b : Blocker) (records : Data) (target : bool) : Sql.Table :=
  '(record_id, instance) ← records;
  (λ k, (k, record_id)) <$> blocker_apply b target instance.

(** ** dedupe.core, dedupe.clustering and the score arrays *)

(** One row of the structured score array: [('pairs', id_type, 2)] and
    [('score', 'f4')].  Scores are modelled as rationals. *)
Definition ScoredPair : Type := (RecordID * RecordID) * Q.

Definition query_id (p : ScoredPair) : RecordID := p.1.1.
Definition target_id (p : ScoredPair) : RecordID := p.1.2.
Definition score_of (p : ScoredPair) : Q := p.2.

(** A cluster: the record ids and one confidence score per id. *)
Definition Cluster : Type := list RecordID * list Q.

(** The scoring functions of [dedupe.core]; they are functions of the
    pairs, the data model, the classifier, the worker count and the
    threshold. *)
Class Core (Obj : Type) := {
  scoreDuplicates :
    list RecordPair → Obj → Obj → nat → Q → list ScoredPair;
  scoreGazette :
    list (list RecordPair) → Obj → Obj → nat → Q → list (list ScoredPair)
}.

(** Modelled from the spec: [clustering.cluster], the threshold
    hierarchical clustering of Section 4.4.  Its merging policy is left
    open; what the data model of Section 3 promises about its output is
    stated by [clusters_wf] below. *)
Class Clustering := {
  clustering_cluster : list ScoredPair → Q → list Cluster
}.

(** Section 3, Cluster: groups are built from pairs, so each holds at least
    two ids, no id twice, and "a record appears in zero or one clusters". *)
Definition clusters_wf (clusters : list Cluster) : Prop :=
  Forall (λ c : Cluster, (2 ≤ length c.1)%nat) clusters ∧
  NoDup (concat (fst <$> clusters)).

(** Descending score order; the sort is stable, so equal scores keep the
    order of the input. *)
Definition score_ge (x y : ScoredPair) : bool :=
  Qle_bool (score_of y) (score_of x).

Definition sort_desc (scores : list ScoredPair) : list ScoredPair :=
  Sql.sort_by score_ge scores.

(** Modelled from the spec: the greedy scan of Section 4.4 over pairs
    already in descending score order: a pair is accepted when both its endpoints are unmatched; the
    left endpoint is then marked, and the right one too when [mark_right]
    is set.  The two id spaces are kept apart (Section 3: "joined on an
    explicit side label"). *)
Fixpoint greedy_scan (mark_right : bool) (A B : gset RecordID)
    (sorted : list ScoredPair) : list ScoredPair :=
  match sorted with
  | [] => []
  | p :: rest =>
      if bool_decide ((query_id p ∉ A) ∧ (target_id p ∉ B))
      then p :: greedy_scan mark_right ({[query_id p]} ∪ A)
                  (if mark_right then {[target_id p]} ∪ B else B) rest
      else greedy_scan mark_right A B rest
  end.

(** Modelled from the spec: [clustering.greedyMatching], one-to-one linkage
    of Section 4.4: "sort all scored pairs by descending score; repeatedly
    accept the highest remaining pair whose both endpoints are still
    unmatched, discard pairs touching an already-matched endpoint". *)
Definition greedyMatching (scores : list ScoredPair) : list ScoredPair :=
  greedy_scan true ∅ ∅ (sort_desc scores).

(** Section 4.4, many-to-one linkage, in the spec's words: the "identical
    greedy scan" in which only one side is marked consumed.  The side
    marked is the query side, whose records each keep one partner. *)
Definition greedy_many_to_one_spec (scores : list ScoredPair) :
    list ScoredPair :=
  greedy_scan false ∅ ∅ (sort_desc scores).

(** [itertools.groupby(l, key)]: maximal runs of equal keys. *)
Fixpoint groupby {A K : Type} `{EqDecision K} (key : A → K) (l : list A) :
    list (K * list A) :=
  match l with
  | [] => []
  | x :: l' =>
      match groupby key l' with
      | (k, g) :: gs =>
          if decide (key x = k) then (k, x :: g) :: gs
          else (key x, [x]) :: (k, g) :: gs
      | [] => [(key x, [x])]
      end
  end.

(** [l[:n]] where an unset [n] means no bound. *)
Definition truncate {A} (n_matches : option nat) (l : list A) : list A :=
  match n_matches with
  | Some n => take n l
  | None => l
  end.

(** Modelled from the spec: [clustering.gazetteMatching], many-to-n
    matching of Section 4.4: "for each query group, sort candidates by
    descending score ... and truncate to n_matches (unbounded if n_matches
    is unset)".  The threshold is applied by the scorer. *)
Definition gazetteMatching (score_blocks : list (list ScoredPair))
    (n_matches : option nat) : list (list ScoredPair) :=
  (λ block, truncate n_matches (sort_desc block)) <$> score_blocks.

(** Modelled from the spec: the query groups of a flat score array
    (Section 4.1: "results are grouped by the querying record id (stable
    order)"): ordered by query id and split where the query id changes, as
    [GazetteerMatching.blocks] does. *)
Definition query_groups (scores : list ScoredPair) : list (list ScoredPair) :=
  snd <$> groupby query_id
            (Sql.sort_by (λ x y, query_id x <=? query_id y) scores).

(** Modelled from the spec: [clustering.pair_gazette_matching], top-n
    gazetteer matching of a flat score array: the pairs are grouped by
    query record and the matches of every group are emitted in turn. *)
Definition pair_gazette_matching (scores : list ScoredPair) (n_matches : nat) :
    list ScoredPair :=
  concat (gazetteMatching (query_groups scores) (Some n_matches)).

(** ** The remaining collaborators *)

(** [multiprocessing.cpu_count()] *)
Class Multiprocessing := cpu_count : nat.

(** [pickle.dump] appends the serialized object to the file; [pickle.load]
    reads one object from the front of the unread bytes or raises. *)
Abbreviation BinaryIO := (list Byte.byte).

Class Pickle (Obj : Type) := {
  pickle_dumps : Obj → BinaryIO;
  pickle_load : BinaryIO → result (Obj * BinaryIO)
}.

(** What [pickle] promises for picklable objects: loading reads back the
    object that was dumped and stops at its end. *)
Class PickleRoundTrip (Obj : Type) `{Pickle Obj} :=
  pickle_load_dumps :
    ∀ (x : Obj) (rest : BinaryIO),
      pickle_load (pickle_dumps x ++ rest) = Ok (x, rest).

(** A labelled example: a pair of records. *)
Definition TrainingExample : Type := RecordDict * RecordDict.

(** [{'distinct': [...], 'match': [...]}] *)
Record TrainingData := {
  td_distinct : list TrainingExample;
  td_match : list TrainingExample
}.

(** [dedupe.datamodel], [rlr] and [dedupe.labeler].  A learner is an object
    with its own truth value, [pop] and [mark]. *)
Class Datamodel (Obj : Type) := {
  DataModel_new : list (gmap string string) → Obj;
  datamodel_check : Obj → RecordDict → result unit;
  RegularizedLogisticRegression : Obj
}.

Class Labeler (Obj Learner : Type) := {
  learner_truth :: Truthy Learner;
  DedupeDisagreementLearner :
    Obj → Data → Q → nat → nat → list TrainingExample → Learner;
  learner_pop : Method Learner (list TrainingExample);
  learner_mark : Learner → list TrainingExample → list Z → Learner
}.

(** ** Matching *)

Section Matching.
Context {Obj Blocker Learner : Type}.
Context {blocking : Blocking Obj Blocker} {core : Core Obj}
        {clustering : Clustering} {multiprocessing : Multiprocessing}
        {pickle : Pickle Obj} {datamodel : Datamodel Obj}
        {labeler : Labeler Obj Learner}.

(** The attributes of the base class.  [data_model], [classifier] and
    [predicates] are only annotated by [Matching.__init__]; they exist
    once a subclass assigns them. *)
Record Matching := {
  num_cores : nat;
  blocker : option Blocker;
  data_model : option Obj;
  classifier : option Obj;
  predicates : option Obj
}.

Definition Matching_init (n : option nat) : Matching :=
  {| num_cores := match n with None => cpu_count | Some n => n end;
     blocker := None; data_model := None; classifier := None;
     predicates := None |}.

Definition set_blocker (b : option Blocker) (m : Matching) : Matching :=
  {| num_cores := num_cores m; blocker := b; data_model := data_model m;
     classifier := classifier m; predicates := predicates m |}.

(** [assert self.blocker], returning the blocker it found. *)
Definition assert_blocker (m : Matching) : result Blocker :=
  match blocker m with
  | Some b => _ ← py_assert (truth b) ""%string; Ok b
  | None => Raise (AssertionError ""%string)
  end.

(** *** IntegralMatching.score *)

Definition IntegralMatching_score (pairs : list RecordPair) (threshold : Q) :
    Method Matching (list ScoredPair) :=
  self ← get;
  dm ← lift (getattr (data_model self) "data_model");
  cl ← lift (getattr (classifier self) "classifier");
  mret (scoreDuplicates pairs dm cl (num_cores self) threshold).

(** *** DedupeMatching.pairs *)

(** [SELECT DISTINCT a.record_id, b.record_id FROM blocking_map a
    INNER JOIN blocking_map b USING (block_key)
    WHERE a.record_id < b.record_id] *)
Definition dedupe_join (t : Sql.Table) : list (RecordID * RecordID) :=
  Sql.distinct (Sql.join_using_block_key Z.ltb t t).

(** The temporary database lives for the call only, and with integer ids
    [core.sqlite_id_type] gives the column the type [integer]; the
    generator is modelled run to its end. *)
Definition DedupeMatching_pairs (data : Data) :
    Method Matching (list RecordPair) :=
  self ← get;
  b ← lift (assert_blocker self);
  let b := indexAll b data in
  _ ← put (set_blocker (Some b) self);
  let blocking_map := blocker_call b data false in
  let b := resetIndices b in
  _ ← put (set_blocker (Some b) self);
  lift (mapM (λ '(a_record_id, b_record_id),
                ra ← getitem data a_record_id;
                rb ← getitem data b_record_id;
                Ok ((a_record_id, ra), (b_record_id, rb)))
             (dedupe_join blocking_map)).

(** *** DedupeMatching.cluster, _add_singletons, partition *)

Definition DedupeMatching_cluster (matches : list ScoredPair) (threshold : Q) :
    list Cluster :=
  clustering_cluster matches threshold.

(** [singletons.difference_update(record_ids)] for every cluster *)
Definition remaining_singletons (singletons : gset RecordID)
    (clusters : list Cluster) : gset RecordID :=
  foldl (λ s c, s ∖ list_to_set c.1) singletons clusters.

Definition DedupeMatching_add_singletons (data : Data)
    (clusters : list Cluster) : list Cluster :=
  let singletons : gset RecordID := list_to_set (keys data) in
  clusters ++
  ((λ singleton, ([singleton], [1%Q])) <$>
     elements (remaining_singletons singletons clusters)).

(** [score] is called with its default threshold 0.0.  Removing the
    memory-mapped score file afterwards does not change the result. *)
Definition DedupeMatching_partition (data : Data) (threshold : Q) :
    Method Matching (list Cluster) :=
  pairs ← DedupeMatching_pairs data;
  pair_scores ← IntegralMatching_score pairs 0%Q;
  let clusters := DedupeMatching_cluster pair_scores threshold in
  mret (DedupeMatching_add_singletons data clusters).

(** *** RecordLinkMatching.one_to_one, many_to_one *)

Definition RecordLinkMatching_one_to_one (scores : list ScoredPair) :
    list ScoredPair :=
  greedyMatching scores.

Definition RecordLinkMatching_many_to_one (scores : list ScoredPair) :
    list ScoredPair :=
  pair_gazette_matching scores 1.

(** *** GazetteerMatching *)

(** The connection holds the table [indexed_records], absent until
    [index] creates it: the state as of the last commit and the working
    state of the statements executed since. *)
Record Connection := {
  committed : option Sql.Table;
  working : option Sql.Table
}.

Record GazetteerMatching := {
  gz_matching : Matching;
  con : Connection;
  indexed_data : gmap RecordID RecordDict
}.

Definition GazetteerMatching_init (n : option nat) : GazetteerMatching :=
  {| gz_matching := Matching_init n;
     con := {| committed := None; working := None |};
     indexed_data := ∅ |}.

Definition set_gz_blocker (b : Blocker) (g : GazetteerMatching) :
    GazetteerMatching :=
  {| gz_matching := set_blocker (Some b) (gz_matching g);
     con := con g; indexed_data := indexed_data g |}.

Definition set_con (c : Connection) (g : GazetteerMatching) :
    GazetteerMatching :=
  {| gz_matching := gz_matching g; con := c;
     indexed_data := indexed_data g |}.

Definition set_indexed_data (d : gmap RecordID RecordDict)
    (g : GazetteerMatching) : GazetteerMatching :=
  {| gz_matching := gz_matching g; con := con g; indexed_data := d |}.

(** [self.con.commit()] *)
Definition commit (c : Connection) : Connection :=
  {| committed := working c; working := working c |}.

(** [self.con.execute("ROLLBACK")] *)
Definition rollback (c : Connection) : Connection :=
  {| committed := committed c; working := committed c |}.

(** A statement that names [indexed_records] fails to compile when the
    table does not exist. *)
Definition indexed_records (c : Connection) : result Sql.Table :=
  match working c with
  | Some t => Ok t
  | None => Raise (OperationalError "no such table: indexed_records")
  end.

Definition set_indexed_records (t : Sql.Table) (c : Connection) :
    Connection :=
  {| committed := committed c; working := Some t |}.

(** [CREATE TABLE IF NOT EXISTS indexed_records (...)] *)
Definition create_table_if_not_exists (c : Connection) : Connection :=
  match working c with
  | Some _ => c
  | None => set_indexed_records [] c
  end.

Definition GazetteerMatching_index (data : Data) :
    Method GazetteerMatching unit :=
  self ← get;
  b ← lift (assert_blocker (gz_matching self));
  let b := indexAll b data in
  let self := set_gz_blocker b self in
  _ ← put self;
  let c := create_table_if_not_exists (con self) in
  let self := set_con c self in
  _ ← put self;
  t ← lift (indexed_records c);
  let t := foldl Sql.replace_into t (blocker_call b data true) in
  let c := commit (set_indexed_records t c) in
  let self := set_con c self in
  _ ← put self;
  (* self.indexed_data.update(data) *)
  put (set_indexed_data
         (foldl (λ d kv, <[kv.1 := kv.2]> d) (indexed_data self) data) self).

(** [{record[field] for record in data.values()}] *)
Definition field_values (data : Data) (field : string) :
    result (gset string) :=
  vs ← mapM (λ record : RecordDict,
               match record !! field with
               | Some v => Ok v
               | None => Raise (KeyError (KStr field))
               end) (values data);
  Ok (list_to_set vs).

(** [del self.indexed_data[k]] *)
Definition del_indexed_data (k : RecordID) : Method GazetteerMatching unit :=
  self ← get;
  match indexed_data self !! k with
  | Some _ => put (set_indexed_data (delete k (indexed_data self)) self)
  | None => lift (Raise (KeyError (KInt k)))
  end.

Definition GazetteerMatching_unindex (data : Data) :
    Method GazetteerMatching unit :=
  self ← get;
  _ ← lift (assert_blocker (gz_matching self));
  _ ← for_each
        (match blocker (gz_matching self) with
         | Some b => index_fields b
         | None => []
         end)
        (λ field,
           self ← get;
           vs ← lift (field_values data field);
           match blocker (gz_matching self) with
           | Some b => put (set_gz_blocker (blocker_unindex b vs field) self)
           | None => mret tt
           end);
  self ← get;
  t ← lift (indexed_records (con self));
  let t := foldl Sql.delete_record_id t (keys data) in
  let self := set_con (commit (set_indexed_records t (con self))) self in
  _ ← put self;
  for_each (keys data) del_indexed_data.

(** [SELECT DISTINCT a.record_id, b.record_id FROM blocking_map a
    INNER JOIN indexed_records b USING (block_key) ORDER BY a.record_id] *)
Definition gazetteer_join (blocking_map indexed : Sql.Table) :
    list (RecordID * RecordID) :=
  Sql.sort_by (λ x y, x.1 <=? y.1)
    (Sql.distinct (Sql.join_using_block_key (λ _ _, true)
                     blocking_map indexed)).

(** The generator is modelled run to its end.  [blocking_map] is a
    temporary table of the transaction that [ROLLBACK] ends. *)
Definition GazetteerMatching_blocks (data_1 : Data) :
    Method GazetteerMatching (list (list RecordPair)) :=
  self ← get;
  b ← lift (assert_blocker (gz_matching self));
  let blocking_map := blocker_call b data_1 false in
  indexed ← lift (indexed_records (con self));
  let pair_blocks := groupby fst (gazetteer_join blocking_map indexed) in
  blocks ← lift (mapM (λ pair_block : RecordID * list (RecordID * RecordID),
              mapM (λ '(a_record_id, b_record_id),
                      ra ← getitem data_1 a_record_id;
                      rb ← match indexed_data self !! b_record_id with
                           | Some r => Ok r
                           | None => Raise (KeyError (KInt b_record_id))
                           end;
                      Ok ((a_record_id, ra), (b_record_id, rb)))
                   pair_block.2)
           pair_blocks);
  _ ← put (set_con (rollback (con self)) self);
  mret blocks.

Definition GazetteerMatching_score (blocks : list (list RecordPair))
    (threshold : Q) : Method GazetteerMatching (list (list ScoredPair)) :=
  self ← get;
  dm ← lift (getattr (data_model (gz_matching self)) "data_model");
  cl ← lift (getattr (classifier (gz_matching self)) "classifier");
  mret (scoreGazette blocks dm cl (num_cores (gz_matching self)) threshold).

Definition GazetteerMatching_many_to_n (score_blocks : list (list ScoredPair))
    (n_matches : option nat) : list (list ScoredPair) :=
  gazetteMatching score_blocks n_matches.

(** One pass of the first loop of [_format_search_results]: [a] is the
    query id of the last row of [result], or [None] for an empty one. *)
Definition format_result (result : list ScoredPair) :
    option RecordID * list (RecordID * Q) :=
  (last (query_id <$> result), (λ p, (target_id p, score_of p)) <$> result).

(** [seen] is created empty and the loop over [results] never adds to
    it, so the second loop ranges over [search_d.keys() - set()]. *)
Definition GazetteerMatching_format_search_results (search_d : Data)
    (results : list (list ScoredPair)) :
    list (option RecordID * list (RecordID * Q)) :=
  let seen : gset RecordID := ∅ in
  (format_result <$> results) ++
  ((λ k, (Some k, [])) <$> elements (list_to_set (keys search_d) ∖ seen)).

Definition GazetteerMatching_search (messy_data : Data) (threshold : Q)
    (n_matches : option nat) :
    Method GazetteerMatching (list (option RecordID * list (RecordID * Q))) :=
  blocks ← GazetteerMatching_blocks messy_data;
  pair_scores ← GazetteerMatching_score blocks threshold;
  let search_results := GazetteerMatching_many_to_n pair_scores n_matches in
  mret (GazetteerMatching_format_search_results messy_data search_results).

(** *** StaticMatching.__init__ *)

Definition version_message : string :=
  "This settings file is not compatible with the current version of dedupe. This can happen if you have recently upgraded dedupe.".

Definition generic_message : string :=
  "Something has gone wrong with loading the settings file. Try deleting the file".

(** The body of the [try]: three loads, in this order. *)
Definition settings_load (settings_file : BinaryIO) :
    result (Obj * Obj * Obj) :=
  '(dm, f) ← pickle_load settings_file;
  '(cl, f) ← pickle_load f;
  '(ps, f) ← pickle_load f;
  Ok (dm, cl, ps).

(** [except (KeyError, AttributeError)] *)
Definition is_key_or_attribute_error (e : exn) : bool :=
  match e with
  | KeyError _ | AttributeError _ => true
  | _ => false
  end.

Definition StaticMatching_init (settings_file : BinaryIO) (n : option nat) :
    result Matching :=
  let self := Matching_init n in
  match settings_load settings_file with
  | Ok (dm, cl, ps) =>
      Ok {| num_cores := num_cores self;
            blocker := Some (Blocker_new ps);
            data_model := Some dm;
            classifier := Some cl;
            predicates := Some ps |}
  | Raise e =>
      if is_key_or_attribute_error e
      then Raise (SettingsFileLoadingException version_message)
      else Raise (SettingsFileLoadingException generic_message)
  end.

(** [StaticGazetteer(settings_file)]: the settings are loaded into the
    base attributes and [GazetteerMatching.__init__] opens an empty
    database. *)
Definition StaticGazetteer_init (settings_file : BinaryIO) (n : option nat) :
    result GazetteerMatching :=
  m ← StaticMatching_init settings_file n;
  Ok {| gz_matching := m;
        con := con (GazetteerMatching_init n);
        indexed_data := indexed_data (GazetteerMatching_init n) |}.

(** *** ActiveMatching *)

Record ActiveMatching := {
  am_matching : Matching;
  training_pairs : TrainingData;
  active_learner : option Learner
}.

(** [classifier] is a class attribute, so it is set on every instance. *)
Definition ActiveMatching_init (variable_definition : list (gmap string string))
    (n : option nat) : ActiveMatching :=
  let self := Matching_init n in
  {| am_matching :=
       {| num_cores := num_cores self;
          blocker := blocker self;
          data_model := Some (DataModel_new variable_definition);
          classifier := Some RegularizedLogisticRegression;
          predicates := predicates self |};
     training_pairs := {| td_distinct := []; td_match := [] |};
     active_learner := None |}.

Definition set_active_learner (l : option Learner) (self : ActiveMatching) :
    ActiveMatching :=
  {| am_matching := am_matching self;
     training_pairs := training_pairs self;
     active_learner := l |}.

(** [pickle.dump(obj, file_obj)] *)
Definition pickle_dump (obj : Obj) : Method BinaryIO unit :=
  file_obj ← get; put (file_obj ++ pickle_dumps obj).

Definition ActiveMatching_write_settings (self : ActiveMatching) :
    Method BinaryIO unit :=
  dm ← lift (getattr (data_model (am_matching self)) "data_model");
  _ ← pickle_dump dm;
  cl ← lift (getattr (classifier (am_matching self)) "classifier");
  _ ← pickle_dump cl;
  ps ← lift (getattr (predicates (am_matching self)) "predicates");
  pickle_dump ps.

Definition ActiveMatching_uncertain_pairs :
    Method ActiveMatching (list TrainingExample) :=
  self ← get;
  _ ← lift (py_assert (truth (active_learner self))
              "Please initialize with the sample method");
  match active_learner self with
  | Some learner =>
      let '(r, learner) := learner_pop learner in
      _ ← put (set_active_learner (Some learner) self);
      lift r
  | None => lift (Raise (AttributeError "pop"))
  end.

(** [flatten_training]: the examples, matches first, and their labels. *)
Definition flatten_training (training_pairs : TrainingData) :
    list TrainingExample * list Z :=
  (td_match training_pairs ++ td_distinct training_pairs,
   replicate (length (td_match training_pairs)) 1 ++
   replicate (length (td_distinct training_pairs)) 0).

(** *** Dedupe._checkData, Dedupe._sample *)

Definition Dedupe_checkData (self : ActiveMatching) (data : Data) :
    result unit :=
  match values data with
  | [] => Raise (ValueError "Dictionary of records is empty.")
  | first :: _ =>
      dm ← getattr (data_model (am_matching self)) "data_model";
      datamodel_check dm first
  end.

Definition Dedupe_sample (data : Data) (sample_size : nat)
    (blocked_proportion : Q) (original_length : option nat) :
    Method ActiveMatching unit :=
  self ← get;
  _ ← lift (Dedupe_checkData self data);
  let original_length :=
    match original_length with
    | Some (S n) => S n
    | _ => length data
    end in
  let '(examples, y) := flatten_training (training_pairs self) in
  dm ← lift (getattr (data_model (am_matching self)) "data_model");
  let learner :=
    DedupeDisagreementLearner dm data blocked_proportion sample_size
      original_length examples in
  _ ← put (set_active_learner (Some learner) self);
  put (set_active_learner (Some (learner_mark learner examples y)) self).

End Matching.

(** ** Record linkage and training *)

(** The parts of [rlr], [dedupe.datamodel] and [dedupe.labeler] that
    training uses: fitting the classifier, the distance matrix of a list of
    examples, the learner's predicate search and the record-link learner. *)
Class Learning (Obj Learner : Type) := {
  classifier_fit : Obj → list (list Q) → list Z → Obj;
  datamodel_distances : Obj → list TrainingExample → list (list Q);
  learn_predicates : Learner → Q → bool → Obj;
  RecordLinkDisagreementLearner :
    Obj → Data → Data → Q → nat → option nat → option nat →
    list TrainingExample → Learner
}.

Section Linking.
Context {Obj Blocker Learner : Type}.
Context {blocking : Blocking Obj Blocker} {core : Core Obj}
        {datamodel : Datamodel Obj} {labeler : Labeler Obj Learner}
        {learning : Learning Obj Learner}.

(** *** RecordLinkMatching.pairs *)

(** [SELECT DISTINCT a.record_id, b.record_id FROM blocking_map_a a
    INNER JOIN blocking_map_b b USING (block_key)] *)
Definition link_join (ta tb : Sql.Table) : list (RecordID * RecordID) :=
  Sql.distinct (Sql.join_using_block_key (λ _ _, true) ta tb).

(** The second dataset is the one that is indexed and blocked as the
    target; the generator is modelled run to its end. *)
Definition RecordLinkMatching_pairs (data_1 data_2 : Data) :
    Method (Matching (Obj := Obj) (Blocker := Blocker)) (list RecordPair) :=
  self ← get;
  b ← lift (assert_blocker self);
  let b := indexAll b data_2 in
  _ ← put (set_blocker (Some b) self);
  let blocking_map_a := blocker_call b data_1 false in
  let blocking_map_b := blocker_call b data_2 true in
  let b := resetIndices b in
  _ ← put (set_blocker (Some b) self);
  lift (mapM (λ '(a_record_id, b_record_id),
                ra ← getitem data_1 a_record_id;
                rb ← getitem data_2 b_record_id;
                Ok ((a_record_id, ra), (b_record_id, rb)))
             (link_join blocking_map_a blocking_map_b)).

(** *** RecordLinkMatching.join *)

Definition constraint_message (constraint : string) : string :=
  constraint +:+
  " is an invalid constraint option. Valid options include one-to-one, many-to-one, or many-to-many".

Definition valid_constraint (constraint : string) : bool :=
  bool_decide (constraint ∈ ["one-to-one"; "many-to-one"; "many-to-many"]%string).

(** [pairs] is a generator, so the attributes that [score] passes to the
    scorer are read before the first pair is produced. *)
Definition RecordLinkMatching_join (data_1 data_2 : Data) (threshold : Q)
    (constraint : string) :
    Method (Matching (Obj := Obj) (Blocker := Blocker)) (list ScoredPair) :=
  _ ← lift (py_assert (valid_constraint constraint)
              (constraint_message constraint));
  self ← get;
  dm ← lift (getattr (data_model self) "data_model");
  cl ← lift (getattr (classifier self) "classifier");
  pairs ← RecordLinkMatching_pairs data_1 data_2;
  let pair_scores := scoreDuplicates pairs dm cl (num_cores self) threshold in
  mret (if bool_decide (constraint = "one-to-one"%string)
        then RecordLinkMatching_one_to_one pair_scores
        else if bool_decide (constraint = "many-to-one"%string)
        then RecordLinkMatching_many_to_one pair_scores
        else pair_scores).

(** *** ActiveMatching._checkRecordPair, _checkTrainingPairs, mark_pairs *)

Abbreviation ActiveMatcher :=
  (ActiveMatching (Obj := Obj) (Blocker := Blocker) (Learner := Learner)).

Definition set_training_pairs (t : TrainingData) (self : ActiveMatcher) :
    ActiveMatcher :=
  {| am_matching := am_matching self;
     training_pairs := t;
     active_learner := active_learner self |}.

Definition set_am_matching (m : Matching) (self : ActiveMatcher) :
    ActiveMatcher :=
  {| am_matching := m;
     training_pairs := training_pairs self;
     active_learner := active_learner self |}.

(** A [TrainingExample] is a pair of dictionaries by its type, so the
    unpacking and the [keys()] calls succeed; what is left are the two
    checks of the data model. *)
Definition ActiveMatching_checkRecordPair (self : ActiveMatcher)
    (record_pair : TrainingExample) : result unit :=
  dm ← getattr (data_model (am_matching self)) "data_model";
  _ ← datamodel_check dm record_pair.1;
  datamodel_check dm record_pair.2.

(** Only the first pair of each list is checked.  The value returned is
    the list of warnings issued. *)
Definition ActiveMatching_checkTrainingPairs (self : ActiveMatcher)
    (labeled_pairs : TrainingData) : result (list string) :=
  _ ← match td_match labeled_pairs with
      | first_pair :: _ => ActiveMatching_checkRecordPair self first_pair
      | [] => Ok tt
      end;
  _ ← match td_distinct labeled_pairs with
      | first_pair :: _ => ActiveMatching_checkRecordPair self first_pair
      | [] => Ok tt
      end;
  Ok (match td_distinct labeled_pairs, td_match labeled_pairs with
      | [], [] => ["Didn't return any labeled record pairs"%string]
      | _, _ => []
      end).

Definition ActiveMatching_mark_pairs (labeled_pairs : TrainingData) :
    Method ActiveMatcher (list string) :=
  self ← get;
  warnings ← lift (ActiveMatching_checkTrainingPairs self labeled_pairs);
  let self :=
    set_training_pairs
      {| td_distinct := td_distinct (training_pairs self) ++
                        td_distinct labeled_pairs;
         td_match := td_match (training_pairs self) ++
                     td_match labeled_pairs |} self in
  _ ← put self;
  _ ← match active_learner self with
      | Some learner =>
          if truth learner
          then let '(examples, y) := flatten_training labeled_pairs in
               put (set_active_learner
                      (Some (learner_mark learner examples y)) self)
          else mret tt
      | None => mret tt
      end;
  mret warnings.

(** *** ActiveMatching.train *)

Definition ActiveMatching_train (recall : Q) (index_predicates : bool) :
    Method ActiveMatcher unit :=
  self ← get;
  _ ← lift (py_assert (truth (active_learner self))
              "Please initialize with the sample method");
  let '(examples, y) := flatten_training (training_pairs self) in
  cl ← lift (getattr (classifier (am_matching self)) "classifier");
  dm ← lift (getattr (data_model (am_matching self)) "data_model");
  let m := am_matching self in
  let m := {| num_cores := num_cores m; blocker := blocker m;
              data_model := data_model m;
              classifier :=
                Some (classifier_fit cl (datamodel_distances dm examples) y);
              predicates := predicates m |} in
  _ ← put (set_am_matching m self);
  match active_learner self with
  | Some learner =>
      let ps := learn_predicates learner recall index_predicates in
      let m := {| num_cores := num_cores m; blocker := blocker m;
                  data_model := data_model m; classifier := classifier m;
                  predicates := Some ps |} in
      _ ← put (set_am_matching m self);
      let m := set_blocker (Some (Blocker_new ps)) m in
      _ ← put (set_am_matching m self);
      put (set_am_matching
             (set_blocker (Some (resetIndices (Blocker_new ps))) m) self)
  | None => lift (Raise (AttributeError "learn_predicates"))
  end.

(** *** Link._checkData, Link._sample *)

Definition Link_checkData (self : ActiveMatcher) (data_1 data_2 : Data) :
    result unit :=
  match values data_1, values data_2 with
  | [], _ =>
      Raise (ValueError "Dictionary of records from first dataset is empty.")
  | _, [] =>
      Raise (ValueError "Dictionary of records from second dataset is empty.")
  | first_1 :: _, first_2 :: _ =>
      dm ← getattr (data_model (am_matching self)) "data_model";
      _ ← datamodel_check dm first_1;
      dm ← getattr (data_model (am_matching self)) "data_model";
      datamodel_check dm first_2
  end.

Definition Link_sample (data_1 data_2 : Data) (sample_size : nat)
    (blocked_proportion : Q) (original_length_1 original_length_2 : option nat) :
    Method ActiveMatcher unit :=
  self ← get;
  _ ← lift (Link_checkData self data_1 data_2);
  let '(examples, y) := flatten_training (training_pairs self) in
  dm ← lift (getattr (data_model (am_matching self)) "data_model");
  let learner :=
    RecordLinkDisagreementLearner dm data_1 data_2 blocked_proportion
      sample_size original_length_1 original_length_2 examples in
  _ ← put (set_active_learner (Some learner) self);
  put (set_active_learner (Some (learner_mark learner examples y)) self).

End Linking.

(** The invariants of a gazetteer: no posting occurs twice (the [UNIQUE]
    constraint of the table), every posting belongs to a record of
    [indexed_data], and nothing is left uncommitted. *)
Definition gazetteer_consistent {Obj Blocker : Type}
    (g : GazetteerMatching (Obj := Obj) (Blocker := Blocker)) : Prop :=
  committed (con g) = working (con g) ∧
  ∀ t, working (con g) = Some t →
       NoDup t ∧ ∀ p : Sql.Posting, p ∈ t → is_Some (indexed_data g !! p.2).

(** ** Predicates used in the statements *)

(** How many times the unordered pair [{a, b}] occurs in a pair stream. *)
Definition unordered_count (a b : RecordID) (l : list (RecordID * RecordID)) :
    nat :=
  length (filter (λ p, p = (a, b) ∨ p = (b, a)) l).

(** In how many clusters the record id [k] occurs. *)
Definition cluster_count (k : RecordID) (clusters : list Cluster) : nat :=
  length (filter (λ c : Cluster, k ∈ c.1) clusters).

(** How many entries of a search result stream carry the query id [k]. *)
Definition entry_count (k : RecordID)
    (entries : list (option RecordID * list (RecordID * Q))) : nat :=
  length (filter (λ e, e.1 = Some k) entries).

(** ** A small instance of the collaborators

    Objects are single bytes, the predicate set keys on the exact value of
    the fields [name] and [city], every candidate pair scores 9/10, and
    the first scored pair at or above the threshold is the one cluster. *)

Module Toy.

Definition Obj := Byte.byte.

Definition fields_blocker : Blocking Obj unit :=
  {| Blocker_new := λ _, tt;
     blocker_truth := λ _, true;
     blocker_apply := λ _ _ r,
       omap (λ f : string, (λ v : string, (f +:+ ":" +:+ v)%string) <$> r !! f)
            ["name"; "city"]%string;
     indexAll := λ b _, b;
     resetIndices := λ b, b;
     index_fields := λ _, ["name"%string];
     blocker_unindex := λ b _ _, b |}.

Definition constant_core : Core Obj :=
  {| scoreDuplicates := λ pairs _ _ _ _,
       (λ p : RecordPair, (pair_ids p, (9 # 10)%Q)) <$> pairs;
     scoreGazette := λ blocks _ _ _ _,
       (λ block : list RecordPair,
          (λ p : RecordPair, (pair_ids p, (9 # 10)%Q)) <$> block) <$> blocks |}.

Definition first_pair_clustering : Clustering :=
  {| clustering_cluster := λ matches threshold,
       match filter (λ p, Qle_bool threshold (score_of p) = true ∧
                          query_id p ≠ target_id p) matches with
       | p :: _ => [([query_id p; target_id p], [score_of p; score_of p])]
       | [] => []
       end |}.

Definition four_cores : Multiprocessing := 4%nat.

Definition byte_pickle : Pickle Obj :=
  {| pickle_dumps := λ b, [b];
     pickle_load := λ f,
       match f with
       | b :: rest => Ok (b, rest)
       | [] => Raise EOFError
       end |}.

(** A loader for which the byte [xff] stands for an object of a class
    that the installed version no longer has. *)
Definition versioned_pickle : Pickle Obj :=
  {| pickle_dumps := λ b, [b];
     pickle_load := λ f,
       match f with
       | Byte.xff :: rest => Raise (AttributeError "Can't get attribute")
       | b :: rest => Ok (b, rest)
       | [] => Raise EOFError
       end |}.

Definition byte_datamodel : Datamodel Obj :=
  {| DataModel_new := λ _, Byte.x00;
     datamodel_check := λ _ _, Ok tt;
     RegularizedLogisticRegression := Byte.x01 |}.

(** A learner is its list of unlabelled candidates; like a container it
    is falsy when empty. *)
Definition list_labeler : Labeler Obj (list TrainingExample) :=
  {| learner_truth := λ l, match l with [] => false | _ => true end;
     DedupeDisagreementLearner := λ _ data _ _ _ _,
       match values data with
       | r1 :: r2 :: _ => [(r1, r2)]
       | _ => []
       end;
     learner_pop := λ l,
       match l with
       | x :: l' => (Ok [x], l')
       | [] => (Raise (IndexError "No more unlabeled examples to label"), l)
       end;
     learner_mark := λ l _ _, l |}.

Definition record (name city : string) : RecordDict :=
  {[ "name"%string := name; "city"%string := city ]}.

(** Records 1 and 2 agree on both fields, record 3 on neither. *)
Definition people : Data :=
  [(1, record "Pat" "Oslo"); (2, record "Pat" "Oslo");
   (3, record "Sam" "Rome")].

Definition trained : Matching (Obj := Obj) (Blocker := unit) :=
  {| num_cores := 4; blocker := Some tt; data_model := Some Byte.x00;
     classifier := Some Byte.x01; predicates := Some Byte.x02 |}.

(** The settings file of [trained]. *)
Definition settings : BinaryIO := [Byte.x00; Byte.x01; Byte.x02].

(** A gazetteer loaded from [settings], before any call of [index]. *)
Definition gazetteer : GazetteerMatching (Obj := Obj) (Blocker := unit) :=
  {| gz_matching := trained;
     con := {| committed := None; working := None |};
     indexed_data := ∅ |}.

Definition people_postings : Sql.Table :=
  [("name:Pat", 1); ("city:Oslo", 1); ("name:Pat", 2); ("city:Oslo", 2);
   ("name:Sam", 3); ("city:Rome", 3)]%string.

(** The gazetteer after [index(people)]. *)
Definition indexed : GazetteerMatching (Obj := Obj) (Blocker := unit) :=
  {| gz_matching := trained;
     con := {| committed := Some people_postings;
               working := Some people_postings |};
     indexed_data := list_to_map people |}.

(** An active matcher that has been trained and holds a learner with one
    candidate pair. *)
Definition teacher :
    ActiveMatching (Obj := Obj) (Blocker := unit)
      (Learner := list TrainingExample) :=
  {| am_matching := trained;
     training_pairs := {| td_distinct := []; td_match := [] |};
     active_learner := Some [(record "Pat" "Oslo", record "Pat" "Oslo")] |}.

Definition scored (a b : RecordID) (score : Q) : ScoredPair := ((a, b), score).

End Toy.

(** The same instance for record linkage and training. *)
Module ToyLink.

Definition byte_learning : Learning Toy.Obj (list TrainingExample) :=
  {| classifier_fit := λ _ _ _, Byte.x03;
     datamodel_distances := λ _ examples, (λ _, [1%Q]) <$> examples;
     learn_predicates := λ _ _ _, Byte.x02;
     RecordLinkDisagreementLearner := λ _ data_1 data_2 _ _ _ _ _,
       match values data_1, values data_2 with
       | r1 :: _, r2 :: _ => [(r1, r2)]
       | _, _ => []
       end |}.

(** A second dataset: record 10 shares the name of records 1 and 2 of
    [Toy.people], record 11 shares nothing. *)
Definition registry : Data :=
  [(10, Toy.record "Pat" "Bonn"); (11, Toy.record "Lee" "Kyiv")].

(** Labelled pairs whose second match is not a valid record. *)
Definition labels : TrainingData :=
  {| td_distinct := [(Toy.record "Pat" "Oslo", Toy.record "Sam" "Rome")];
     td_match := [(Toy.record "Pat" "Oslo", Toy.record "Pat" "Bonn");
                  (∅, ∅)] |}.

(** A data model that requires the field [name]. *)
Definition name_datamodel : Datamodel Toy.Obj :=
  {| DataModel_new := λ _, Byte.x00;
     datamodel_check := λ _ r,
       match r !! "name"%string with
       | Some _ => Ok tt
       | None => Raise (ValueError "Records do not line up with data model")
       end;
     RegularizedLogisticRegression := Byte.x01 |}.

(** An active matcher just constructed. *)
Definition novice :
    ActiveMatching (Obj := Toy.Obj) (Blocker := unit)
      (Learner := list TrainingExample) :=
  {| am_matching :=
       {| num_cores := 4; blocker := None; data_model := Some Byte.x00;
          classifier := Some Byte.x01; predicates := None |};
     training_pairs := {| td_distinct := []; td_match := [] |};
     active_learner := None |}.

End ToyLink.

(** * Properties *)

(** ** The error monad and dictionaries *)

Lemma mapM_Ok {A B} (f : A → result B) (l : list A) :
  (∀ x, x ∈ l → ∃ y, f x = Ok y) →
  ∃ ys, mapM f l = Ok ys ∧ Forall2 (λ x y, f x = Ok y) l ys.
Proof.
  induction l as [|x l IH]; intros Hf; simpl.
  - exists []. split; [done | constructor].
  - destruct (Hf x) as [y Hy]; [by left |].
    destruct IH as (ys & Hys & Hall).
    { intros z Hz. apply Hf. by right. }
    exists (y :: ys). rewrite Hy. simpl. rewrite Hys. simpl.
    split; [done | by constructor].
Qed.

Lemma elem_of_concat {A} (x : A) (ls : list (list A)) :
  x ∈ concat ls ↔ ∃ l, l ∈ ls ∧ x ∈ l.
Proof.
  induction ls as [|l0 ls IH]; simpl.
  - rewrite elem_of_nil. split; [done |].
    intros (l & Hl & _). by apply elem_of_nil in Hl.
  - rewrite elem_of_app, IH. split.
    + intros [Hx | (l & Hl & Hx)].
      * exists l0. split; [by left | done].
      * exists l. split; [by right | done].
    + intros (l & Hl & Hx). apply elem_of_cons in Hl as [-> | Hl].
      * by left.
      * right. eauto.
Qed.

Lemma getitem_Ok (data : Data) (k : RecordID) :
  k ∈ keys data → ∃ r, getitem data k = Ok r.
Proof.
  unfold keys. induction data as [|[k' r] data IH]; simpl; intros Hk.
  - by apply elem_of_nil in Hk.
  - destruct (decide (k' = k)) as [->|Hne]; [by eexists |].
    apply IH. apply elem_of_cons in Hk as [Hk|Hk]; [congruence | done].
Qed.

(** ** The join *)

Lemma elem_of_join_using_block_key cond (t1 t2 : Sql.Table) (a b : RecordID) :
  (a, b) ∈ Sql.join_using_block_key cond t1 t2 ↔
  ∃ key, (key, a) ∈ t1 ∧ (key, b) ∈ t2 ∧ cond a b = true.
Proof.
  unfold Sql.join_using_block_key. rewrite list_elem_of_bind. split.
  - intros ([k1 a1] & Hin & H1). apply list_elem_of_bind in Hin.
    destruct Hin as ([k2 b2] & Hin & H2). simpl in Hin.
    destruct (bool_decide (k1 = k2) && cond a1 b2) eqn:E.
    + apply list_elem_of_singleton in Hin. injection Hin as -> ->.
      apply andb_true_iff in E as [E1 E2]. apply bool_decide_eq_true in E1.
      subst. eauto.
    + by apply elem_of_nil in Hin.
  - intros (key & H1 & H2 & Hc). exists (key, a). split; [|done].
    apply list_elem_of_bind. exists (key, b). split; [|done]. simpl.
    rewrite bool_decide_eq_true_2 by done. rewrite Hc. simpl. by left.
Qed.

Lemma blocker_call_record_id `{Blocking Obj Blocker}
    (b : Blocker) (data : Data) (target : bool) (key : BlockKey) (k : RecordID) :
  (key, k) ∈ blocker_call b data target → k ∈ keys data.
Proof.
  unfold blocker_call, keys. rewrite list_elem_of_bind.
  intros ([k' r] & Hin & Hdata). apply list_elem_of_fmap in Hin.
  destruct Hin as (key' & Heq & _). injection Heq as _ Heq. subst k'.
  apply list_elem_of_fmap. by exists (k, r).
Qed.

Lemma unordered_count_le_1 (a b : RecordID) (l : list (RecordID * RecordID)) :
  NoDup l → Forall (λ p, p.1 < p.2) l → (unordered_count a b l ≤ 1)%nat.
Proof.
  unfold unordered_count. intros Hnd Hlt.
  induction Hnd as [|x l Hx Hnd IH]; simpl; [lia |].
  apply Forall_cons in Hlt as [Hxlt Hlt]. specialize (IH Hlt).
  rewrite filter_cons. case_decide as Hp; [|done]. simpl.
  assert (filter (λ p, p = (a, b) ∨ p = (b, a)) l = []) as ->; [|simpl; lia].
  apply elem_of_nil_inv. intros y Hyin.
  apply list_elem_of_filter in Hyin as [Hq Hy].
  apply (proj1 (Forall_forall _ _) Hlt) in Hy as Hylt.
  assert (x ≠ y) by (intros ->; contradiction).
  destruct Hp as [-> | ->], Hq as [-> | ->]; simpl in *; try done; lia.
Qed.

Section DedupeProofs.
Context {Obj Blocker : Type}.
Context {blocking : Blocking Obj Blocker} {core : Core Obj}
        {clustering : Clustering}.

Lemma assert_blocker_Ok (self : Matching (Obj := Obj)) :
  truth (blocker self) = true →
  ∃ b : Blocker, blocker self = Some b ∧ assert_blocker self = Ok b.
Proof.
  unfold assert_blocker. destruct (blocker self) as [b|]; simpl; [|done].
  intros Hb. exists b. change (truth b = true) in Hb. by rewrite Hb.
Qed.

Lemma dedupe_join_spec (t : Sql.Table) (a b : RecordID) :
  (a, b) ∈ dedupe_join t ↔
  a < b ∧ ∃ key, (key, a) ∈ t ∧ (key, b) ∈ t.
Proof.
  unfold dedupe_join, Sql.distinct. rewrite elem_of_remove_dups.
  rewrite elem_of_join_using_block_key. rewrite <- Z.ltb_lt. split.
  - intros (key & ? & ? & ?). eauto.
  - intros (? & key & ? & ?). eauto.
Qed.

(** What a run of [pairs] on a matcher with a blocker does: the ids of
    the pairs it yields are the rows of the join, and only the blocker
    attribute changes. *)
Lemma DedupeMatching_pairs_run (self : Matching) (data : Data) :
  truth (blocker self) = true →
  ∃ (out : list RecordPair) (b b' : Blocker),
    DedupeMatching_pairs data self = (Ok out, set_blocker (Some b') self) ∧
    pair_ids <$> out = dedupe_join (blocker_call b data false).
Proof.
  intros Hb. destruct (assert_blocker_Ok self Hb) as (b & Hsome & Hassert).
  unfold DedupeMatching_pairs.
  set (t := blocker_call (indexAll b data) data false).
  set (f := λ '(a_record_id, b_record_id),
              ra ← getitem data a_record_id;
              rb ← getitem data b_record_id;
              Ok ((a_record_id, ra), (b_record_id, rb))).
  destruct (mapM_Ok f (dedupe_join t)) as (out & Hout & Hall).
  { intros [a1 b1] Hin. apply dedupe_join_spec in Hin.
    destruct Hin as (_ & key & Ha & Hb1).
    apply blocker_call_record_id in Ha, Hb1.
    destruct (getitem_Ok data a1 Ha) as [ra Hra].
    destruct (getitem_Ok data b1 Hb1) as [rb Hrb].
    exists ((a1, ra), (b1, rb)). unfold f. rewrite Hra. simpl.
    rewrite Hrb. done. }
  exists out, (indexAll b data), (resetIndices (indexAll b data)). split.
  - unfold mbind, method_bind, get, lift, put. simpl. rewrite Hassert.
    f_equal. exact Hout.
  - fold t. clear Hout. induction Hall as [|[a1 b1] y l ys Hy _ IH]; [done |].
    rewrite fmap_cons, IH. f_equal. unfold f in Hy.
    destruct (getitem data a1); simpl in Hy; [|done].
    destruct (getitem data b1); simpl in Hy; [|done].
    by injection Hy as <-.
Qed.

(** C1. For every dataset and every predicate set, a matcher that has a
    blocker yields its candidate pairs: each pair of ids is emitted with
    the smaller id first, no pair of ids is emitted twice, and each
    unordered pair of ids occurs at most once in the stream, however many
    block keys the two records share. *)
Theorem DedupeMatching_pairs_no_duplicates (self : Matching) (data : Data) :
  truth (blocker self) = true →
  ∃ (out : list RecordPair) self',
    DedupeMatching_pairs data self = (Ok out, self') ∧
    Forall (λ p : RecordPair, p.1.1 < p.2.1) out ∧
    NoDup (pair_ids <$> out) ∧
    ∀ a b, (unordered_count a b (pair_ids <$> out) ≤ 1)%nat.
Proof.
  intros Hb. destruct (DedupeMatching_pairs_run self data Hb)
    as (out & b & b' & Hrun & Hids).
  set (t := blocker_call b data false) in *.
  assert (Forall (λ p : RecordID * RecordID, p.1 < p.2) (dedupe_join t))
    as Hlt.
  { apply Forall_forall. intros [a1 b1] Hin.
    by apply dedupe_join_spec in Hin as [? _]. }
  assert (NoDup (dedupe_join t)) as Hnd by apply NoDup_remove_dups.
  exists out. eexists. split; [exact Hrun |]. split; [|split].
  - rewrite <- Hids in Hlt. by apply Forall_fmap in Hlt.
  - by rewrite Hids.
  - intros a1 b1. rewrite Hids. by apply unordered_count_le_1.
Qed.

(** *** _add_singletons *)

Lemma elem_of_remaining_singletons (k : RecordID) (s : gset RecordID)
    (clusters : list Cluster) :
  k ∈ remaining_singletons s clusters ↔
  k ∈ s ∧ k ∉ concat (fst <$> clusters).
Proof.
  unfold remaining_singletons. revert s.
  induction clusters as [|c clusters IH]; intros s; simpl.
  - rewrite elem_of_nil. tauto.
  - rewrite IH, elem_of_difference, elem_of_list_to_set, elem_of_app. tauto.
Qed.

Lemma cluster_count_app (k : RecordID) (l1 l2 : list Cluster) :
  cluster_count k (l1 ++ l2) = (cluster_count k l1 + cluster_count k l2)%nat.
Proof. unfold cluster_count. by rewrite filter_app, length_app. Qed.

Lemma cluster_count_disjoint (k : RecordID) (clusters : list Cluster) :
  NoDup (concat (fst <$> clusters)) →
  cluster_count k clusters =
    if decide (k ∈ concat (fst <$> clusters)) then 1%nat else 0%nat.
Proof.
  unfold cluster_count.
  induction clusters as [|c clusters IH]; intros Hnd.
  - destruct (decide _) as [Hk|Hk]; [by apply elem_of_nil in Hk | done].
  - rewrite fmap_cons in *. simpl concat in *.
    apply NoDup_app in Hnd as (_ & Hdisj & Hnd). specialize (IH Hnd).
    rewrite filter_cons.
    destruct (decide (k ∈ c.1)) as [Hin|Hnin]; simpl.
    + rewrite IH.
      destruct (decide (k ∈ concat clusters.*1)) as [Hk|Hk];
        [by apply Hdisj in Hk |].
      destruct (decide _) as [?|Hn]; [done | exfalso; apply Hn].
      apply elem_of_app. by left.
    + rewrite IH. destruct (decide (k ∈ concat (fst <$> clusters))) as [Hk|Hk];
        destruct (decide _) as [Hk'|Hk']; try done; exfalso.
      * apply Hk'. apply elem_of_app. by right.
      * apply elem_of_app in Hk'. tauto.
Qed.

Lemma cluster_count_singletons (k : RecordID) (l : list RecordID) :
  NoDup l →
  cluster_count k ((λ singleton, ([singleton], [1%Q])) <$> l) =
    if decide (k ∈ l) then 1%nat else 0%nat.
Proof.
  unfold cluster_count. induction 1 as [|x l Hx Hnd IH].
  - destruct (decide _) as [Hk|Hk]; [by apply elem_of_nil in Hk | done].
  - rewrite fmap_cons, filter_cons. cbn [fst].
    destruct (decide (k ∈ [x])) as [Hin|Hnin]; cbn [length]; rewrite IH.
    + apply list_elem_of_singleton in Hin as ->.
      destruct (decide (x ∈ l)) as [Hk|Hk]; [done |].
      destruct (decide _) as [?|Hn]; [done | exfalso; apply Hn]. by left.
    + rewrite list_elem_of_singleton in Hnin.
      destruct (decide (k ∈ l)) as [Hk|Hk];
        destruct (decide _) as [Hk'|Hk']; try done; exfalso.
      * apply Hk'. by right.
      * apply elem_of_cons in Hk'. tauto.
Qed.

Lemma add_singletons_count (data : Data) (clusters : list Cluster) (k : RecordID) :
  NoDup (concat (fst <$> clusters)) →
  k ∈ keys data →
  cluster_count k (DedupeMatching_add_singletons data clusters) = 1%nat.
Proof.
  intros Hnd Hk. unfold DedupeMatching_add_singletons.
  rewrite cluster_count_app, cluster_count_disjoint by done.
  rewrite cluster_count_singletons by apply NoDup_elements.
  assert (k ∈ elements (remaining_singletons (list_to_set (keys data)) clusters)
          ↔ k ∉ concat (fst <$> clusters)) as Hiff.
  { rewrite elem_of_elements, elem_of_remaining_singletons,
      elem_of_list_to_set. tauto. }
  repeat case_decide; try done; tauto.
Qed.

Lemma add_singletons_singleton (data : Data) (clusters : list Cluster)
    (k : RecordID) :
  k ∈ keys data →
  k ∉ concat (fst <$> clusters) →
  ([k], [1%Q]) ∈ DedupeMatching_add_singletons data clusters.
Proof.
  intros Hk Hnot. unfold DedupeMatching_add_singletons.
  apply elem_of_app. right. apply list_elem_of_fmap. exists k.
  split; [done |].
  rewrite elem_of_elements, elem_of_remaining_singletons, elem_of_list_to_set.
  done.
Qed.

(** C2. On a matcher that can block and score, whenever the clustering
    step returns groups of at least two ids in which no id occurs twice,
    [partition] returns clusters in which every record id of the input
    occurs in exactly one cluster, and every id that is in no cluster of
    two or more records is there as the singleton [((id,), (1.0,))]. *)
Theorem DedupeMatching_partition_complete (self : Matching) (data : Data)
    (threshold : Q) :
  truth (blocker self) = true →
  is_Some (data_model self) →
  is_Some (classifier self) →
  (∀ matches, clusters_wf (clustering_cluster matches threshold)) →
  ∃ (out : list Cluster) self',
    DedupeMatching_partition data threshold self = (Ok out, self') ∧
    (∀ k, k ∈ keys data → cluster_count k out = 1%nat) ∧
    (∀ k, k ∈ keys data →
          (∀ c : Cluster, c ∈ out → k ∈ c.1 → (length c.1 < 2)%nat) →
          ([k], [1%Q]) ∈ out).
Proof.
  intros Hb [dm Hdm] [cl Hcl] Hwf.
  destruct (DedupeMatching_pairs_run self data Hb) as (ps & _ & b & Hrun & _).
  set (scores := scoreDuplicates ps dm cl (num_cores self) 0%Q).
  set (clusters := clustering_cluster scores threshold).
  destruct (Hwf scores) as [Hmulti Hnd]. fold clusters in Hmulti, Hnd.
  exists (DedupeMatching_add_singletons data clusters).
  exists (set_blocker (Some b) self).
  split; [|split].
  - unfold DedupeMatching_partition, IntegralMatching_score.
    unfold mbind at 1. unfold method_bind at 1. rewrite Hrun.
    unfold mbind, method_bind, get, lift, mret, method_ret. simpl.
    rewrite Hdm, Hcl. reflexivity.
  - intros k Hk. by apply add_singletons_count.
  - intros k Hk Hsmall. apply add_singletons_singleton; [done |].
    intros Hin. apply elem_of_concat in Hin as (ids & Hids & Hkin).
    apply list_elem_of_fmap in Hids as (c & -> & Hc).
    assert (length c.1 < 2)%nat.
    { apply Hsmall; [|done]. unfold DedupeMatching_add_singletons.
      apply elem_of_app. by left. }
    apply (proj1 (Forall_forall _ _) Hmulti) in Hc. simpl in Hc. lia.
Qed.

End DedupeProofs.

(** ** GazetteerMatching *)

Lemma elem_of_replace_into (t : Sql.Table) (row p : Sql.Posting) :
  p ∈ Sql.replace_into t row ↔ p ∈ t ∨ p = row.
Proof.
  unfold Sql.replace_into.
  rewrite elem_of_app, list_elem_of_filter, list_elem_of_singleton.
  destruct (decide (p = row)); tauto.
Qed.

Lemma elem_of_foldl_replace_into (rows : list Sql.Posting) (t : Sql.Table)
    (p : Sql.Posting) :
  p ∈ foldl Sql.replace_into t rows ↔ p ∈ t ∨ p ∈ rows.
Proof.
  revert t. induction rows as [|row rows IH]; intros t; simpl.
  - rewrite elem_of_nil. tauto.
  - rewrite IH, elem_of_replace_into, elem_of_cons. tauto.
Qed.

Lemma elem_of_foldl_delete_record_id (ks : list RecordID) (t : Sql.Table)
    (p : Sql.Posting) :
  p ∈ foldl Sql.delete_record_id t ks ↔ p ∈ t ∧ p.2 ∉ ks.
Proof.
  revert t. induction ks as [|k ks IH]; intros t; simpl.
  - rewrite elem_of_nil. tauto.
  - rewrite IH. unfold Sql.delete_record_id at 1.
    rewrite list_elem_of_filter, elem_of_cons. tauto.
Qed.

Lemma field_values_Ok (data : Data) (field : string) :
  (∀ r : RecordDict, r ∈ values data → is_Some (r !! field)) →
  ∃ vs, field_values data field = Ok vs.
Proof.
  intros Hfield. unfold field_values.
  destruct (mapM_Ok (λ record : RecordDict,
              match record !! field with
              | Some v => Ok v
              | None => Raise (KeyError (KStr field))
              end) (values data)) as (vs & Hvs & _).
  - intros r Hr. destruct (Hfield r Hr) as [v Hv]. exists v. by rewrite Hv.
  - exists (list_to_set vs). by rewrite Hvs.
Qed.

Section GazetteerProofs.
Context {Obj Blocker : Type}.
Context {blocking : Blocking Obj Blocker} {core : Core Obj}
        {multiprocessing : Multiprocessing} {pickle : Pickle Obj}.

Abbreviation Gazetteer := (GazetteerMatching (Obj := Obj) (Blocker := Blocker)).

(** The loop over the index fields changes the blocker only. *)
Lemma unindex_fields_loop (data : Data) (fields : list string)
    (self : Gazetteer) :
  is_Some (blocker (gz_matching self)) →
  (∀ field (r : RecordDict),
      field ∈ fields → r ∈ values data → is_Some (r !! field)) →
  ∃ self' : Gazetteer,
    for_each fields
      (λ field,
         self ← get;
         vs ← lift (field_values data field);
         match blocker (gz_matching self) with
         | Some b => put (set_gz_blocker (blocker_unindex b vs field) self)
         | None => mret tt
         end) self = (Ok tt, self') ∧
    con self' = con self ∧ indexed_data self' = indexed_data self.
Proof.
  revert self. induction fields as [|field fields IH]; intros self Hb Hfields.
  - exists self. done.
  - destruct Hb as [b Hb].
    destruct (field_values_Ok data field) as [vs Hvs].
    { intros r Hr. apply Hfields; [by left | done]. }
    destruct (IH (set_gz_blocker (blocker_unindex b vs field) self))
      as (self' & Hloop & Hcon & Hdata).
    { by eexists. }
    { intros f r Hf Hr. apply Hfields; [by right | done]. }
    exists self'. split; [|done]. cbn [for_each].
    unfold mbind at 1. unfold method_bind at 1.
    unfold mbind at 1. unfold method_bind at 1. unfold get at 1.
    unfold mbind at 1. unfold method_bind at 1. unfold lift at 1.
    rewrite Hvs, Hb. unfold put at 1. exact Hloop.
Qed.

(** The deletion loop stops at the first id that is not in the map. *)
Lemma del_indexed_data_loop (ks : list RecordID) (self : Gazetteer)
    (k : RecordID) :
  k ∈ ks → indexed_data self !! k = None →
  ∃ k' (self' : Gazetteer),
    for_each ks del_indexed_data self = (Raise (KeyError (KInt k')), self') ∧
    k' ∈ ks ∧ con self' = con self.
Proof.
  revert self. induction ks as [|k0 ks IH]; intros self Hk Hnone.
  - by apply elem_of_nil in Hk.
  - cbn [for_each]. unfold mbind at 1. unfold method_bind at 1.
    unfold del_indexed_data at 1. unfold mbind at 1. unfold method_bind at 1.
    unfold get at 1.
    destruct (indexed_data self !! k0) as [r|] eqn:Hk0.
    + assert (k ≠ k0) as Hne by congruence.
      apply elem_of_cons in Hk as [? | Hk]; [done |].
      destruct (IH (set_indexed_data (delete k0 (indexed_data self)) self) Hk)
        as (k' & self' & Hloop & Hk' & Hcon).
      { cbn. rewrite lookup_delete_ne by done. done. }
      exists k', self'. unfold put at 1. split; [exact Hloop |].
      split; [by right | done].
    + exists k0, self. unfold lift. split; [done |]. split; [by left | done].
Qed.

(** C10, as amended. Once [index] has created the posting table, and when
    every given record has the fields the blocker indexes, [unindex]
    called with an id that is not indexed raises [KeyError] on an id of
    [data]; by then the postings of all the given ids have been deleted
    and the deletion committed. *)
Theorem GazetteerMatching_unindex_not_atomic (self : Gazetteer) (data : Data)
    (t : Sql.Table) (k : RecordID) :
  truth (blocker (gz_matching self)) = true →
  working (con self) = Some t →
  (∀ b field (r : RecordDict),
      blocker (gz_matching self) = Some b →
      field ∈ index_fields b → r ∈ values data → is_Some (r !! field)) →
  k ∈ keys data →
  indexed_data self !! k = None →
  ∃ k' (self' : Gazetteer) (t' : Sql.Table),
    GazetteerMatching_unindex data self = (Raise (KeyError (KInt k')), self') ∧
    k' ∈ keys data ∧
    committed (con self') = Some t' ∧
    ∀ p, p ∈ t' ↔ p ∈ t ∧ p.2 ∉ keys data.
Proof.
  intros Hb Ht Hfields Hk Hnone.
  destruct (assert_blocker_Ok (gz_matching self) Hb) as (b & Hsome & Hassert).
  destruct (unindex_fields_loop data (index_fields b) self)
    as (self1 & Hloop & Hcon1 & Hdata1).
  { by eexists. }
  { intros field r. by apply Hfields. }
  set (t' := foldl Sql.delete_record_id t (keys data)).
  set (self2 := set_con (commit (set_indexed_records t' (con self1))) self1).
  destruct (del_indexed_data_loop (keys data) self2 k Hk)
    as (k' & self3 & Hdel & Hk' & Hcon3).
  { unfold self2. cbn. by rewrite Hdata1. }
  exists k', self3, t'. split; [|split; [done | split]].
  - unfold GazetteerMatching_unindex.
    unfold mbind at 1. unfold method_bind at 1. unfold get at 1.
    unfold mbind at 1. unfold method_bind at 1. unfold lift at 1.
    rewrite Hassert.
    unfold mbind at 1. unfold method_bind at 1. rewrite Hsome, Hloop.
    unfold mbind at 1. unfold method_bind at 1. unfold get at 1.
    unfold mbind at 1. unfold method_bind at 1. unfold lift at 1.
    unfold indexed_records. rewrite Hcon1, Ht.
    unfold mbind at 1. unfold method_bind at 1. unfold put at 1.
    exact Hdel.
  - rewrite Hcon3. reflexivity.
  - intros p. apply elem_of_foldl_delete_record_id.
Qed.

(** [index] only adds postings: every row of [indexed_records] is still
    there after any later call. *)
Lemma GazetteerMatching_index_keeps_postings (self self' : Gazetteer)
    (data : Data) (t : Sql.Table) (p : Sql.Posting) :
  working (con self) = Some t →
  GazetteerMatching_index data self = (Ok tt, self') →
  p ∈ t →
  ∃ t', working (con self') = Some t' ∧ p ∈ t'.
Proof.
  intros Ht Hrun Hp. unfold GazetteerMatching_index in Hrun.
  unfold mbind, method_bind, get, lift, put in Hrun.
  destruct (assert_blocker (gz_matching self)) as [b|e]; [|done].
  cbn in Hrun. unfold create_table_if_not_exists, indexed_records in Hrun.
  rewrite Ht in Hrun. cbn in Hrun. rewrite Ht in Hrun.
  injection Hrun as <-. cbn. eexists. split; [done |].
  apply elem_of_foldl_replace_into. by left.
Qed.


(** How often a query id is emitted: once for every result that carries
    it, and once more by the second loop. *)
Lemma format_search_results_entry_count (search_d : Data)
    (results : list (list ScoredPair)) (k : RecordID) :
  k ∈ keys search_d →
  entry_count k (GazetteerMatching_format_search_results search_d results) =
  S (length (filter (λ r, (format_result r).1 = Some k) results)).
Proof.
  intros Hk. unfold entry_count, GazetteerMatching_format_search_results.
  rewrite filter_app, length_app.
  assert (length (filter (λ e : option RecordID * list (RecordID * Q),
                            e.1 = Some k) (format_result <$> results)) =
          length (filter (λ r, (format_result r).1 = Some k) results)) as ->.
  { induction results as [|r results IH]; [done |].
    rewrite fmap_cons, !filter_cons.
    destruct (decide ((format_result r).1 = Some k)); cbn [length];
      by rewrite IH. }
  assert (∀ l : list RecordID, NoDup l →
            length (filter (λ e : option RecordID * list (RecordID * Q),
                              e.1 = Some k)
                      ((λ k', (Some k', [])) <$> l)) =
            if decide (k ∈ l) then 1%nat else 0%nat) as Hcount.
  { induction 1 as [|x l Hx Hnd IH].
    - destruct (decide _) as [Hin|]; [by apply elem_of_nil in Hin | done].
    - rewrite fmap_cons, filter_cons. cbn [fst].
      destruct (decide (Some x = Some k)) as [[= ->] | Hne]; cbn [length];
        rewrite IH.
      + destruct (decide (k ∈ l)) as [? | _]; [done |].
        destruct (decide _) as [? | Hn]; [done | exfalso; apply Hn]. by left.
      + destruct (decide (k ∈ l)) as [Hin | Hin];
          destruct (decide _) as [Hin' | Hin']; try done; exfalso.
        * apply Hin'. by right.
        * apply elem_of_cons in Hin' as [-> | ?]; [by apply Hne | done]. }
  rewrite Hcount by apply NoDup_elements.
  rewrite decide_True; [lia |].
  rewrite elem_of_elements, elem_of_difference, elem_of_list_to_set.
  split; [done | apply not_elem_of_empty].
Qed.

End GazetteerProofs.

(** ** Settings and active learning *)

Section SettingsProofs.
Context {Obj Blocker Learner : Type}.
Context {blocking : Blocking Obj Blocker} {core : Core Obj}
        {multiprocessing : Multiprocessing} {pickle : Pickle Obj}
        {datamodel : Datamodel Obj} {labeler : Labeler Obj Learner}.

Abbreviation Static := (Matching (Obj := Obj) (Blocker := Blocker)).
Abbreviation Active :=
  (ActiveMatching (Obj := Obj) (Blocker := Blocker) (Learner := Learner)).


(** The three objects at the front of a settings file are read in the
    order data model, classifier, predicates. *)
Lemma StaticMatching_init_reads_in_order {pickle_ok : PickleRoundTrip Obj}
    (x1 x2 x3 : Obj) (rest : BinaryIO) (n : option nat) :
  StaticMatching_init
    (pickle_dumps x1 ++ pickle_dumps x2 ++ pickle_dumps x3 ++ rest) n
  = Ok {| num_cores := num_cores (Matching_init (Obj := Obj) (Blocker := Blocker) n);
          blocker := Some (Blocker_new x3);
          data_model := Some x1;
          classifier := Some x2;
          predicates := Some x3 |}.
Proof.
  unfold StaticMatching_init, settings_load.
  rewrite pickle_load_dumps. cbn.
  rewrite pickle_load_dumps. cbn.
  rewrite pickle_load_dumps. cbn. reflexivity.
Qed.

(** C6. A trained matcher writes its data model, classifier and
    predicates, in that order; a static matcher built from the file holds
    the same three objects, and with the same worker count it scores
    every pair set as the matcher that wrote the file does. *)
Theorem write_settings_round_trip {pickle_ok : PickleRoundTrip Obj}
    (self : Active) (n : option nat) (dm cl ps : Obj) :
  data_model (am_matching self) = Some dm →
  classifier (am_matching self) = Some cl →
  predicates (am_matching self) = Some ps →
  ∃ (settings_file : BinaryIO) (fresh : Static),
    ActiveMatching_write_settings self [] = (Ok tt, settings_file) ∧
    settings_file = pickle_dumps dm ++ pickle_dumps cl ++ pickle_dumps ps ∧
    StaticMatching_init settings_file n = Ok fresh ∧
    data_model fresh = Some dm ∧
    classifier fresh = Some cl ∧
    predicates fresh = Some ps ∧
    blocker fresh = Some (Blocker_new ps) ∧
    (num_cores fresh = num_cores (am_matching self) →
     ∀ pairs threshold,
       fst (IntegralMatching_score pairs threshold fresh) =
       fst (IntegralMatching_score pairs threshold (am_matching self))).
Proof.
  intros Hdm Hcl Hps.
  exists (pickle_dumps dm ++ pickle_dumps cl ++ pickle_dumps ps).
  eexists. split; [|split; [done | split]].
  - unfold ActiveMatching_write_settings, pickle_dump.
    rewrite Hdm, Hcl, Hps. cbn. by rewrite app_assoc.
  - rewrite <- (app_nil_r (pickle_dumps ps)).
    apply StaticMatching_init_reads_in_order.
  - cbn. repeat (split; [done |]). intros Hn pairs threshold.
    unfold IntegralMatching_score, mbind, method_bind, get, lift, mret,
      method_ret.
    rewrite Hdm, Hcl. cbn in *. by rewrite Hn.
Qed.


(** Every failure of the constructor is a
    [SettingsFileLoadingException]. *)
Lemma StaticMatching_init_raises_only_settings_exception
    (settings_file : BinaryIO) (n : option nat) (e : exn) :
  StaticMatching_init (Blocker := Blocker) settings_file n = Raise e →
  e = SettingsFileLoadingException version_message ∨
  e = SettingsFileLoadingException generic_message.
Proof.
  unfold StaticMatching_init.
  destruct (settings_load settings_file) as [[[dm cl] ps]|e0]; [done |].
  destruct (is_key_or_attribute_error e0); intros [= <-]; auto.
Qed.


(** After a successful [_sample] the learner attribute is set. *)
Lemma Dedupe_sample_sets_learner (self self' : Active)
    (data : Data) (sample_size : nat) (blocked_proportion : Q)
    (original_length : option nat) :
  Dedupe_sample data sample_size blocked_proportion original_length self
    = (Ok tt, self') →
  is_Some (active_learner self').
Proof.
  unfold Dedupe_sample. unfold mbind, method_bind, get, lift, put.
  destruct (Dedupe_checkData self data); [|done].
  destruct (flatten_training (training_pairs self)) as [examples y].
  destruct (getattr (data_model (am_matching self)) "data_model"); [|done].
  intros [= <-]. by eexists.
Qed.

End SettingsProofs.

(** ** Stable sorting *)

Section SortFacts.
Context {A : Type} (le : A → A → bool).
Hypothesis le_total : ∀ x y, le x y = false → le y x = true.
Hypothesis le_trans : ∀ x y z, le x y = true → le y z = true → le x z = true.

Local Abbreviation R := (λ x y : A, le x y = true).










End SortFacts.






(** ** The greedy scan *)






(** ** Query groups *)

Section GroupFacts.
Context {A : Type} (key : A → Z).

Local Abbreviation le := (λ x y : A, key x <=? key y).



End GroupFacts.









(** ** The properties on the small instance *)

Section Instance.
Import Toy.
Local Existing Instances fields_blocker constant_core first_pair_clustering
  four_cores byte_pickle byte_datamodel list_labeler.

(** Records 1 and 2 share two block keys and are paired once. *)
Example DedupeMatching_pairs_people :
  ∃ out : list RecordPair,
    fst (DedupeMatching_pairs people trained) = Ok out ∧
    pair_ids <$> out = [(1, 2)].
Proof. eexists. split; vm_compute; reflexivity. Qed.

Lemma DedupeMatching_pairs_no_duplicates_witness :
  truth (blocker trained) = true ∧
  ∃ (out : list RecordPair) self',
    DedupeMatching_pairs people trained = (Ok out, self') ∧
    Forall (λ p : RecordPair, p.1.1 < p.2.1) out ∧
    NoDup (pair_ids <$> out) ∧
    ∀ a b, (unordered_count a b (pair_ids <$> out) ≤ 1)%nat.
Proof.
  split; [reflexivity |].
  apply (DedupeMatching_pairs_no_duplicates trained people).
  reflexivity.
Defined.

Lemma first_pair_clustering_wf (matches : list ScoredPair) (threshold : Q) :
  clusters_wf (clustering_cluster matches threshold).
Proof.
  unfold clusters_wf. simpl.
  destruct (filter _ matches) as [|p rest] eqn:E; simpl.
  - split; constructor.
  - assert (p ∈ filter (λ p, Qle_bool threshold (score_of p) = true ∧
                             query_id p ≠ target_id p) matches) as Hp.
    { rewrite E. by left. }
    apply list_elem_of_filter in Hp as [[_ Hne] _].
    split; [repeat constructor |].
    apply NoDup_cons. split.
    + by rewrite list_elem_of_singleton.
    + apply NoDup_singleton.
Qed.

Lemma DedupeMatching_partition_complete_witness :
  truth (blocker trained) = true ∧
  is_Some (data_model trained) ∧
  is_Some (classifier trained) ∧
  (∀ matches, clusters_wf (clustering_cluster matches (1 # 2)%Q)) ∧
  ∃ (out : list Cluster) self',
    DedupeMatching_partition people (1 # 2)%Q trained = (Ok out, self') ∧
    (∀ k, k ∈ keys people → cluster_count k out = 1%nat) ∧
    (∀ k, k ∈ keys people →
          (∀ c : Cluster, c ∈ out → k ∈ c.1 → (length c.1 < 2)%nat) →
          ([k], [1%Q]) ∈ out).
Proof.
  split; [reflexivity |].
  split; [eexists; reflexivity |].
  split; [eexists; reflexivity |].
  split; [intros; apply first_pair_clustering_wf |].
  apply (DedupeMatching_partition_complete trained people (1 # 2)%Q).
  - reflexivity.
  - eexists; reflexivity.
  - eexists; reflexivity.
  - intros; apply first_pair_clustering_wf.
Defined.

(** The trivial dedup scenario: one cluster and one singleton. *)
Example DedupeMatching_partition_people :
  fst (DedupeMatching_partition people (1 # 2)%Q trained)
  = Ok [([1; 2], [(9 # 10)%Q; (9 # 10)%Q]); ([3], [1%Q])].
Proof. vm_compute. reflexivity. Qed.

(** The one-to-one scenario of Section 8: [(1, 2)] is accepted and
    [(1, 3)] is skipped because left id 1 is matched.  The left id 2 of
    [(2, 4)] belongs to the other dataset than the right id 2 of
    [(1, 2)], so [(2, 4)] is accepted. *)
Example one_to_one_scenario :
  RecordLinkMatching_one_to_one
    [scored 1 2 (9 # 10); scored 1 3 (8 # 10); scored 2 4 (7 # 10)]
  = [scored 1 2 (9 # 10); scored 2 4 (7 # 10)].
Proof. vm_compute. reflexivity. Qed.


(** C3: a query id with a candidate match is emitted twice, first with
    its matches and then with the empty tuple. *)
Theorem format_search_results_repeats_query_id :
  let out :=
    GazetteerMatching_format_search_results
      [(7, record "Pat" "Paris")] [[scored 7 1 (9 # 10)]] in
  out = [(Some 7, [(1, (9 # 10)%Q)]); (Some 7, [])] ∧
  entry_count 7 out = 2%nat.
Proof. vm_compute. split; reflexivity. Qed.

Example index_people :
  GazetteerMatching_index people gazetteer = (Ok tt, indexed).
Proof. vm_compute. reflexivity. Qed.

(** The same through [search]: record 7 shares a name with record 1. *)
Example search_repeats_query_id :
  fst (GazetteerMatching_search [(7, record "Pat" "Paris")] (1 # 2)%Q
         (Some 1%nat) indexed)
  = Ok [(Some 7, [(1, (9 # 10)%Q)]); (Some 7, [])].
Proof. vm_compute. reflexivity. Qed.

(** C8: after record 1 is indexed again with new field values, its old
    postings are still in the table, and a query that shares only an old
    block key is still paired with it. *)
Theorem index_again_keeps_old_postings :
  let first := snd (GazetteerMatching_index
                      [(1, record "Pat" "Oslo")] gazetteer) in
  let second := snd (GazetteerMatching_index
                       [(1, record "Sam" "Rome")] first) in
  working (con second)
    = Some [("name:Pat", 1); ("city:Oslo", 1);
            ("name:Sam", 1); ("city:Rome", 1)]%string ∧
  committed (con second) = working (con second) ∧
  indexed_data second !! 1 = Some (record "Sam" "Rome") ∧
  fst (GazetteerMatching_blocks [(7, record "Pat" "Paris")] second)
    = Ok [[((7, record "Pat" "Paris"), (1, record "Sam" "Rome"))]].
Proof. cbv zeta. repeat apply conj; vm_compute; reflexivity. Qed.

Example load_gazetteer :
  StaticGazetteer_init settings (Some 4%nat) = Ok gazetteer.
Proof. reflexivity. Qed.

(** C10, as stated, fails: before the first [index] there is no posting
    table, and [unindex] of an id that is not indexed stops at the
    [DELETE] statement with an [OperationalError]. *)
Lemma unindex_without_table :
  let outcome :=
    fst (GazetteerMatching_unindex [(1, record "Pat" "Oslo")] gazetteer) in
  indexed_data gazetteer !! 1 = None ∧
  outcome = Raise (OperationalError "no such table: indexed_records") ∧
  ∀ k, outcome ≠ Raise (KeyError k).
Proof. vm_compute. repeat split. discriminate. Qed.

Lemma GazetteerMatching_unindex_not_atomic_witness :
  let data := [(1, record "Pat" "Oslo"); (4, record "Kim" "Lima")] in
  truth (blocker (gz_matching indexed)) = true ∧
  working (con indexed) = Some people_postings ∧
  (∀ b field (r : RecordDict),
      blocker (gz_matching indexed) = Some b →
      field ∈ index_fields b → r ∈ values data → is_Some (r !! field)) ∧
  4 ∈ keys data ∧
  indexed_data indexed !! 4 = None ∧
  ∃ k' self' (t' : Sql.Table),
    GazetteerMatching_unindex data indexed
      = (Raise (KeyError (KInt k')), self') ∧
    k' ∈ keys data ∧
    committed (con self') = Some t' ∧
    ∀ p, p ∈ t' ↔ p ∈ people_postings ∧ p.2 ∉ keys data.
Proof.
  intros data.
  assert (∀ b field (r : RecordDict),
             blocker (gz_matching indexed) = Some b →
             field ∈ index_fields b → r ∈ values data →
             is_Some (r !! field)) as Hfields.
  { intros b field r _ Hfield Hr.
    apply list_elem_of_singleton in Hfield as ->.
    repeat (apply elem_of_cons in Hr as [-> | Hr]; [by eexists |]).
    by apply elem_of_nil in Hr. }
  assert (4 ∈ keys data) as Hk by (right; left).
  split; [reflexivity |]. split; [reflexivity |]. split; [exact Hfields |].
  split; [exact Hk |]. split; [reflexivity |].
  apply (GazetteerMatching_unindex_not_atomic indexed data people_postings 4);
    [reflexivity | reflexivity | exact Hfields | exact Hk | reflexivity].
Defined.

(** What the run of the witness leaves behind: the postings of records 1
    and 4 are gone from the committed table, record 1 is gone from the
    map, and the error names record 4. *)
Example unindex_unknown_id :
  let run := GazetteerMatching_unindex
               [(1, record "Pat" "Oslo"); (4, record "Kim" "Lima")] indexed in
  fst run = Raise (KeyError (KInt 4)) ∧
  committed (con (snd run))
    = Some [("name:Pat", 2); ("city:Oslo", 2);
            ("name:Sam", 3); ("city:Rome", 3)]%string ∧
  indexed_data (snd run) !! 1 = None.
Proof. vm_compute. repeat split. Qed.



(** With equal scores inside a group both take the pair that comes first
    in the input. *)
Example many_to_one_ties :
  let scores := [scored 1 7 (1 # 2); scored 1 5 (1 # 2)] in
  RecordLinkMatching_many_to_one scores = [scored 1 7 (1 # 2)] ∧
  greedy_many_to_one_spec scores = [scored 1 7 (1 # 2)].
Proof. vm_compute. split; reflexivity. Qed.

Lemma byte_pickle_round_trip : PickleRoundTrip Obj.
Proof. intros x rest. reflexivity. Qed.

Lemma write_settings_round_trip_witness :
  PickleRoundTrip Obj ∧
  data_model (am_matching teacher) = Some Byte.x00 ∧
  classifier (am_matching teacher) = Some Byte.x01 ∧
  predicates (am_matching teacher) = Some Byte.x02 ∧
  ∃ (settings_file : BinaryIO) (fresh : Matching),
    ActiveMatching_write_settings teacher [] = (Ok tt, settings_file) ∧
    settings_file = [Byte.x00] ++ [Byte.x01] ++ [Byte.x02] ∧
    StaticMatching_init settings_file (Some 4%nat) = Ok fresh ∧
    data_model fresh = Some Byte.x00 ∧
    classifier fresh = Some Byte.x01 ∧
    predicates fresh = Some Byte.x02 ∧
    blocker fresh = Some tt ∧
    (num_cores fresh = num_cores (am_matching teacher) →
     ∀ pairs threshold,
       fst (IntegralMatching_score pairs threshold fresh) =
       fst (IntegralMatching_score pairs threshold (am_matching teacher))).
Proof.
  split; [exact byte_pickle_round_trip |].
  split; [reflexivity |]. split; [reflexivity |]. split; [reflexivity |].
  exact (write_settings_round_trip (pickle_ok := byte_pickle_round_trip)
           teacher (Some 4%nat) Byte.x00 Byte.x01 Byte.x02
           eq_refl eq_refl eq_refl).
Defined.



(** A learner set up by [_sample] on a fresh matcher answers
    [uncertain_pairs]. *)
Example sample_then_uncertain_pairs :
  let fresh : ActiveMatching (Blocker := unit) :=
    ActiveMatching_init [] (Some 4%nat) in
  let sampled := snd (Dedupe_sample people 10 (1 # 2)%Q None fresh) in
  fst (ActiveMatching_uncertain_pairs fresh)
    = Raise (AssertionError "Please initialize with the sample method") ∧
  fst (ActiveMatching_uncertain_pairs sampled)
    = Ok [(record "Pat" "Oslo", record "Pat" "Oslo")].
Proof. cbv zeta. split; vm_compute; reflexivity. Qed.

End Instance.

Section VersionedInstance.
Local Existing Instances Toy.fields_blocker Toy.four_cores
  Toy.versioned_pickle.

(** A file whose second object names a class that is gone is reported
    with the version message. *)
Example StaticMatching_init_version_mismatch :
  StaticMatching_init (Blocker := unit) [Byte.x00; Byte.xff; Byte.x02] None
  = Raise (SettingsFileLoadingException version_message).
Proof. reflexivity. Qed.

End VersionedInstance.

(** * Further properties *)

(** ** Running methods *)

Lemma run_get {S B} (k : S → Method S B) (s : S) : (get ≫= k) s = k s s.
Proof. reflexivity. Qed.

Lemma run_put {S B} (s' : S) (k : unit → Method S B) (s : S) :
  (put s' ≫= k) s = k tt s'.
Proof. reflexivity. Qed.

Lemma run_lift_Ok {S A B} (a : A) (k : A → Method S B) (s : S) :
  (lift (Ok a) ≫= k) s = k a s.
Proof. reflexivity. Qed.

Lemma run_lift_Raise {S A B} (e : exn) (k : A → Method S B) (s : S) :
  (lift (Raise e) ≫= k) s = (Raise e, s).
Proof. reflexivity. Qed.

Lemma run_mret {S A B} (a : A) (k : A → Method S B) (s : S) :
  (mret a ≫= k) s = k a s.
Proof. reflexivity. Qed.

Lemma run_bind {S A B} (m : Method S A) (k : A → Method S B) (s s' : S)
    (a : A) :
  m s = (Ok a, s') → (m ≫= k) s = k a s'.
Proof. intros Hm. unfold mbind, method_bind. by rewrite Hm. Qed.


(** ** Candidate pairs *)

Lemma Forall2_fmap_eq {A B} (h : B → A) (l : list A) (out : list B) :
  Forall2 (λ x y, h y = x) l out → h <$> out = l.
Proof.
  induction 1 as [|x y l out Hxy _ IH]; [done |].
  by rewrite fmap_cons, Hxy, IH.
Qed.

(** Looking up both records of every id pair succeeds when the ids are
    keys, and yields the dataset's own records. *)
Lemma lookup_pairs_Ok (data_1 data_2 : Data) (ids : list (RecordID * RecordID)) :
  (∀ a b, (a, b) ∈ ids → a ∈ keys data_1 ∧ b ∈ keys data_2) →
  ∃ out : list RecordPair,
    mapM (λ '(a_record_id, b_record_id),
            ra ← getitem data_1 a_record_id;
            rb ← getitem data_2 b_record_id;
            Ok ((a_record_id, ra), (b_record_id, rb))) ids = Ok out ∧
    pair_ids <$> out = ids ∧
    Forall (λ p : RecordPair,
              getitem data_1 p.1.1 = Ok p.1.2 ∧
              getitem data_2 p.2.1 = Ok p.2.2) out.
Proof.
  intros Hkeys.
  set (f := λ '(a_record_id, b_record_id),
              ra ← getitem data_1 a_record_id;
              rb ← getitem data_2 b_record_id;
              Ok ((a_record_id, ra), (b_record_id, rb))).
  assert (∀ x (y : RecordPair), f x = Ok y →
            pair_ids y = x ∧ getitem data_1 y.1.1 = Ok y.1.2 ∧
            getitem data_2 y.2.1 = Ok y.2.2) as Hf.
  { intros [a b] y Hy. unfold f in Hy.
    destruct (getitem data_1 a) as [ra|] eqn:Ha; cbn in Hy; [|done].
    destruct (getitem data_2 b) as [rb|] eqn:Hb; cbn in Hy; [|done].
    injection Hy as <-. done. }
  destruct (mapM_Ok f ids) as (out & Hout & Hall).
  { intros [a b] Hin. destruct (Hkeys a b Hin) as [Ha Hb].
    destruct (getitem_Ok data_1 a Ha) as [ra Hra].
    destruct (getitem_Ok data_2 b Hb) as [rb Hrb].
    exists ((a, ra), (b, rb)). unfold f. rewrite Hra. cbn. by rewrite Hrb. }
  exists out. split; [exact Hout |]. split.
  - apply Forall2_fmap_eq. eapply Forall2_impl; [exact Hall |].
    intros x y Hxy. by apply Hf in Hxy as [? _].
  - eapply Forall2_Forall_r; [exact Hall |]. apply Forall_forall.
    intros x _ y Hxy. by apply Hf in Hxy as [_ ?].
Qed.

Section PairsProofs.
Context {Obj Blocker : Type}.
Context {blocking : Blocking Obj Blocker}.

Abbreviation Matcher := (Matching (Obj := Obj) (Blocker := Blocker)).

(** X1. [DedupeMatching.pairs] yields the pair [(a, b)] exactly when
    [a < b] and the two records share a block key under the blocker as
    indexed on the data; the records yielded with the ids are the records
    of the dataset, and the blocker is left with its indices reset. *)
Theorem DedupeMatching_pairs_exact (self : Matcher) (data : Data)
    (b0 : Blocker) :
  blocker self = Some b0 →
  truth b0 = true →
  ∃ out : list RecordPair,
    DedupeMatching_pairs data self =
      (Ok out, set_blocker (Some (resetIndices (indexAll b0 data))) self) ∧
    (∀ a b, (a, b) ∈ pair_ids <$> out ↔
            a < b ∧
            ∃ key, (key, a) ∈ blocker_call (indexAll b0 data) data false ∧
                   (key, b) ∈ blocker_call (indexAll b0 data) data false) ∧
    Forall (λ p : RecordPair,
              getitem data p.1.1 = Ok p.1.2 ∧ getitem data p.2.1 = Ok p.2.2)
           out.
Proof.
  intros Hb Htruth.
  set (t := blocker_call (indexAll b0 data) data false).
  destruct (lookup_pairs_Ok data data (dedupe_join t)) as (out & Hout & Hids & Hrec).
  { intros a b Hin. apply dedupe_join_spec in Hin as (_ & key & Ha & Hb').
    split; eapply blocker_call_record_id; eauto. }
  exists out. split; [|split; [|done]].
  - unfold DedupeMatching_pairs, assert_blocker.
    rewrite run_get, Hb, Htruth. cbn [py_assert mbind result_bind].
    rewrite run_lift_Ok, !run_put. unfold lift. f_equal. exact Hout.
  - intros a b. rewrite Hids. apply dedupe_join_spec.
Qed.

(** X2. [RecordLinkMatching.pairs] yields the pair [(a, b)] exactly when
    record [a] of the first dataset and record [b] of the second share a
    block key, the second dataset being blocked as the target; no pair of
    ids is yielded twice, and the records yielded are those of the two
    datasets. *)
Theorem RecordLinkMatching_pairs_exact (self : Matcher) (data_1 data_2 : Data)
    (b0 : Blocker) :
  blocker self = Some b0 →
  truth b0 = true →
  ∃ out : list RecordPair,
    RecordLinkMatching_pairs data_1 data_2 self =
      (Ok out, set_blocker (Some (resetIndices (indexAll b0 data_2))) self) ∧
    NoDup (pair_ids <$> out) ∧
    (∀ a b, (a, b) ∈ pair_ids <$> out ↔
            ∃ key, (key, a) ∈ blocker_call (indexAll b0 data_2) data_1 false ∧
                   (key, b) ∈ blocker_call (indexAll b0 data_2) data_2 true) ∧
    Forall (λ p : RecordPair,
              getitem data_1 p.1.1 = Ok p.1.2 ∧
              getitem data_2 p.2.1 = Ok p.2.2) out.
Proof.
  intros Hb Htruth.
  set (ta := blocker_call (indexAll b0 data_2) data_1 false).
  set (tb := blocker_call (indexAll b0 data_2) data_2 true).
  assert (∀ a b, (a, b) ∈ link_join ta tb ↔
                 ∃ key, (key, a) ∈ ta ∧ (key, b) ∈ tb) as Hjoin.
  { intros a b. unfold link_join, Sql.distinct.
    rewrite elem_of_remove_dups, elem_of_join_using_block_key. split.
    - intros (key & ? & ? & _). eauto.
    - intros (key & ? & ?). eauto. }
  destruct (lookup_pairs_Ok data_1 data_2 (link_join ta tb))
    as (out & Hout & Hids & Hrec).
  { intros a b Hin. apply Hjoin in Hin as (key & Ha & Hb').
    split; eapply blocker_call_record_id; eauto. }
  exists out. split; [|split; [|split; [|done]]].
  - unfold RecordLinkMatching_pairs, assert_blocker.
    rewrite run_get, Hb, Htruth. cbn [py_assert mbind result_bind].
    rewrite run_lift_Ok, !run_put. unfold lift. f_equal. exact Hout.
  - rewrite Hids. apply NoDup_remove_dups.
  - intros a b. rewrite Hids. apply Hjoin.
Qed.

End PairsProofs.

(** ** The gazetteer index *)

Lemma NoDup_replace_into (t : Sql.Table) (row : Sql.Posting) :
  NoDup t → NoDup (Sql.replace_into t row).
Proof.
  intros Hnd. unfold Sql.replace_into. apply NoDup_app.
  split; [by apply NoDup_filter |]. split; [|apply NoDup_singleton].
  intros p Hp Hrow. apply list_elem_of_filter in Hp as [Hne _].
  by apply list_elem_of_singleton in Hrow.
Qed.

Lemma NoDup_foldl_replace_into (rows : list Sql.Posting) (t : Sql.Table) :
  NoDup t → NoDup (foldl Sql.replace_into t rows).
Proof.
  revert t. induction rows as [|row rows IH]; intros t Hnd; [done |].
  cbn [foldl]. by apply IH, NoDup_replace_into.
Qed.

(** [d.update(data)] *)
Lemma lookup_update_ne (data : Data) (d : gmap RecordID RecordDict)
    (k : RecordID) :
  k ∉ keys data →
  foldl (λ d kv, <[kv.1 := kv.2]> d) d data !! k = d !! k.
Proof.
  unfold keys. revert d. induction data as [|[k' r] data IH]; intros d Hk;
    [done |].
  rewrite fmap_cons, not_elem_of_cons in Hk. destruct Hk as [Hne Hk].
  cbn [foldl]. rewrite IH by done. cbn. by apply lookup_insert_ne.
Qed.

Lemma lookup_update_eq (data : Data) (d : gmap RecordID RecordDict)
    (k : RecordID) (r : RecordDict) :
  NoDup (keys data) → (k, r) ∈ data →
  foldl (λ d kv, <[kv.1 := kv.2]> d) d data !! k = Some r.
Proof.
  unfold keys. revert d. induction data as [|[k' r'] data IH]; intros d Hnd Hin.
  - by apply elem_of_nil in Hin.
  - rewrite fmap_cons in Hnd. apply NoDup_cons in Hnd as [Hfresh Hnd].
    cbn [foldl]. apply elem_of_cons in Hin as [[= <- <-] | Hin].
    + rewrite lookup_update_ne by done. cbn. apply lookup_insert_eq.
    + by apply IH.
Qed.

Lemma filter_all {A} (P : A → Prop) `{∀ x, Decision (P x)} (l : list A) :
  Forall P l → filter P l = l.
Proof.
  induction 1 as [|x l Hx _ IH]; [done |].
  by rewrite filter_cons, decide_True, IH.
Qed.

Lemma lookup_update_is_Some (data : Data) (d : gmap RecordID RecordDict)
    (k : RecordID) :
  k ∈ keys data ∨ is_Some (d !! k) →
  is_Some (foldl (λ d kv, <[kv.1 := kv.2]> d) d data !! k).
Proof.
  unfold keys. revert d. induction data as [|[k' r] data IH]; intros d Hk.
  - destruct Hk as [Hk | Hk]; [by apply elem_of_nil in Hk | done].
  - cbn [foldl]. apply IH. rewrite fmap_cons in Hk. cbn [fst snd].
    destruct Hk as [Hk | Hk].
    + apply elem_of_cons in Hk as [-> | Hk]; [|by left].
      right. rewrite lookup_insert_eq. by eexists.
    + right. apply lookup_insert_is_Some'. by right.
Qed.

Lemma foldl_delete_record_id_filter (ks : list RecordID)
    (t : list Sql.Posting) :
  foldl Sql.delete_record_id t ks = filter (λ p, p.2 ∉ ks) t.
Proof.
  revert t. induction ks as [|k ks IH]; intros t; cbn [foldl].
  - symmetry. apply filter_all, Forall_forall. intros p _.
    apply not_elem_of_nil.
  - rewrite IH. unfold Sql.delete_record_id.
    rewrite (list_filter_filter (λ p : Sql.Posting, p.2 ∉ ks)
               (λ r : Sql.Posting, r.2 ≠ k)).
    apply list_filter_iff. intros p. rewrite not_elem_of_cons. tauto.
Qed.


Section IndexProofs.
Context {Obj Blocker : Type}.
Context {blocking : Blocking Obj Blocker}.

Abbreviation Gazette := (GazetteerMatching (Obj := Obj) (Blocker := Blocker)).

(** The state [index] leaves behind. *)
Lemma GazetteerMatching_index_run (self : Gazette) (data : Data) (b0 : Blocker) :
  blocker (gz_matching self) = Some b0 →
  truth b0 = true →
  GazetteerMatching_index data self =
    (Ok tt,
     {| gz_matching := set_blocker (Some (indexAll b0 data)) (gz_matching self);
        con :=
          commit
            (set_indexed_records
               (foldl Sql.replace_into (default [] (working (con self)))
                  (blocker_call (indexAll b0 data) data true))
               (con self));
        indexed_data :=
          foldl (λ d kv, <[kv.1 := kv.2]> d) (indexed_data self) data |}).
Proof.
  intros Hb Htruth. unfold GazetteerMatching_index, assert_blocker.
  rewrite run_get, Hb, Htruth. cbn [py_assert mbind result_bind].
  rewrite run_lift_Ok, !run_put.
  destruct self as [m [cm [wk|]] d]; reflexivity.
Qed.

(** X4. After [index(data)] on a gazetteer with a blocker, the posting
    table is committed and holds the old postings and the postings of the
    given records, every given id maps to its given record, and the
    records of all other ids are as before. *)
Theorem GazetteerMatching_index_lookup (self : Gazette) (data : Data)
    (b0 : Blocker) :
  blocker (gz_matching self) = Some b0 →
  truth b0 = true →
  NoDup (keys data) →
  ∃ (self' : Gazette) (t' : Sql.Table),
    GazetteerMatching_index data self = (Ok tt, self') ∧
    working (con self') = Some t' ∧
    committed (con self') = Some t' ∧
    (∀ p, p ∈ t' ↔
          p ∈ default [] (working (con self)) ∨
          p ∈ blocker_call (indexAll b0 data) data true) ∧
    (∀ k r, (k, r) ∈ data → indexed_data self' !! k = Some r) ∧
    (∀ k, k ∉ keys data → indexed_data self' !! k = indexed_data self !! k).
Proof.
  intros Hb Htruth Hnd. eexists. eexists.
  split; [by apply GazetteerMatching_index_run |].
  split; [reflexivity |]. split; [reflexivity |]. split; [|split].
  - intros p. apply elem_of_foldl_replace_into.
  - intros k r Hin. cbn. by apply lookup_update_eq.
  - intros k Hk. cbn. by apply lookup_update_ne.
Qed.

(** X5. [index] keeps the invariants of the gazetteer: afterwards no
    posting occurs twice, every posting belongs to a record of
    [indexed_data], and everything is committed. *)
Theorem GazetteerMatching_index_consistent (self : Gazette) (data : Data) :
  truth (blocker (gz_matching self)) = true →
  gazetteer_consistent self →
  ∃ self' : Gazette,
    GazetteerMatching_index data self = (Ok tt, self') ∧
    gazetteer_consistent self'.
Proof.
  intros Hb [Hcommitted Hcons].
  destruct (assert_blocker_Ok (gz_matching self) Hb) as (b0 & Hsome & _).
  assert (truth b0 = true) as Htruth by (by rewrite Hsome in Hb).
  eexists. split; [by apply GazetteerMatching_index_run |].
  split; [reflexivity |]. cbn. intros t [= <-].
  assert (NoDup (default [] (working (con self))) ∧
          ∀ p : Sql.Posting, p ∈ default [] (working (con self)) →
               is_Some (indexed_data self !! p.2)) as [Hnd Hold].
  { destruct (working (con self)) as [t|]; cbn.
    - by apply Hcons.
    - split; [constructor |]. intros p Hp. by apply elem_of_nil in Hp. }
  split; [by apply NoDup_foldl_replace_into |].
  intros p Hp. apply lookup_update_is_Some.
  apply elem_of_foldl_replace_into in Hp as [Hp | Hp].
  - right. by apply Hold.
  - left. destruct p as [key k]. by apply blocker_call_record_id in Hp.
Qed.

(** The loop over the index fields keeps the connection, the map and the
    presence of a blocker. *)
Lemma unindex_fields_loop_state (data : Data) (fields : list string)
    (self : Gazette) :
  is_Some (blocker (gz_matching self)) →
  (∀ field (r : RecordDict),
      field ∈ fields → r ∈ values data → is_Some (r !! field)) →
  ∃ self' : Gazette,
    for_each fields
      (λ field,
         self ← get;
         vs ← lift (field_values data field);
         match blocker (gz_matching self) with
         | Some b => put (set_gz_blocker (blocker_unindex b vs field) self)
         | None => mret tt
         end) self = (Ok tt, self') ∧
    con self' = con self ∧ indexed_data self' = indexed_data self ∧
    is_Some (blocker (gz_matching self')).
Proof.
  revert self. induction fields as [|field fields IH]; intros self Hb Hfields.
  - by exists self.
  - destruct Hb as [b Hb].
    destruct (field_values_Ok data field) as [vs Hvs].
    { intros r Hr. apply Hfields; [by left | done]. }
    destruct (IH (set_gz_blocker (blocker_unindex b vs field) self))
      as (self' & Hloop & Hcon & Hdata & Hb').
    { by eexists. }
    { intros f r Hf Hr. apply Hfields; [by right | done]. }
    exists self'. split; [|done]. cbn [for_each].
    erewrite run_bind; [exact Hloop |].
    rewrite run_get, Hvs, run_lift_Ok, Hb. reflexivity.
Qed.

(** The deletion loop on ids that are all in the map. *)
Lemma del_indexed_data_loop_Ok (ks : list RecordID) (self : Gazette) :
  NoDup ks →
  (∀ k, k ∈ ks → is_Some (indexed_data self !! k)) →
  ∃ self' : Gazette,
    for_each ks del_indexed_data self = (Ok tt, self') ∧
    con self' = con self ∧ gz_matching self' = gz_matching self ∧
    ∀ k, indexed_data self' !! k =
         if decide (k ∈ ks) then None else indexed_data self !! k.
Proof.
  revert self. induction ks as [|k0 ks IH]; intros self Hnd Hks.
  - exists self. split; [done |]. split; [done |]. split; [done |].
    intros k. destruct (decide (k ∈ [])) as [Hin |]; [|done].
    by apply elem_of_nil in Hin.
  - apply NoDup_cons in Hnd as [Hfresh Hnd].
    destruct (Hks k0) as [r Hr]; [by left |].
    destruct (IH (set_indexed_data (delete k0 (indexed_data self)) self) Hnd)
      as (self' & Hloop & Hcon & Hm & Hlookup).
    { intros k Hk. cbn. rewrite lookup_delete_ne by (by intros ->).
      apply Hks. by right. }
    exists self'. split; [|split; [done | split; [done |]]].
    + cbn [for_each]. erewrite run_bind; [exact Hloop |].
      unfold del_indexed_data. rewrite run_get, Hr. reflexivity.
    + intros k. rewrite Hlookup. cbn.
      destruct (decide (k = k0)) as [-> | Hne].
      * rewrite decide_False by done. rewrite decide_True by by left.
        apply lookup_delete_eq.
      * rewrite lookup_delete_ne by done.
        destruct (decide (k ∈ ks)) as [Hin | Hin].
        -- rewrite decide_True; [done | by right].
        -- rewrite decide_False; [done |].
           rewrite not_elem_of_cons. done.
Qed.

(** The state a successful [unindex] leaves behind. *)
Lemma GazetteerMatching_unindex_run (self : Gazette) (data : Data)
    (t : Sql.Table) (b0 : Blocker) :
  blocker (gz_matching self) = Some b0 →
  truth b0 = true →
  working (con self) = Some t →
  (∀ field (r : RecordDict),
      field ∈ index_fields b0 → r ∈ values data → is_Some (r !! field)) →
  NoDup (keys data) →
  (∀ k, k ∈ keys data → is_Some (indexed_data self !! k)) →
  ∃ self' : Gazette,
    GazetteerMatching_unindex data self = (Ok tt, self') ∧
    working (con self') = Some (filter (λ p, p.2 ∉ keys data) t) ∧
    committed (con self') = working (con self') ∧
    (∀ k, indexed_data self' !! k =
          if decide (k ∈ keys data) then None else indexed_data self !! k) ∧
    is_Some (blocker (gz_matching self')).
Proof.
  intros Hb Htruth Ht Hfields Hnd Hks.
  destruct (unindex_fields_loop_state data (index_fields b0) self)
    as (self1 & Hloop & Hcon1 & Hdata1 & Hb1); [by eexists | done |].
  set (t' := foldl Sql.delete_record_id t (keys data)).
  set (self2 := set_con (commit (set_indexed_records t' (con self1))) self1).
  destruct (del_indexed_data_loop_Ok (keys data) self2 Hnd)
    as (self3 & Hdel & Hcon3 & Hm3 & Hlookup).
  { intros k Hk. unfold self2. cbn. rewrite Hdata1. by apply Hks. }
  exists self3. split; [|split; [|split; [|split]]].
  - unfold GazetteerMatching_unindex, assert_blocker.
    rewrite run_get, Hb, Htruth. cbn [py_assert mbind result_bind].
    rewrite run_lift_Ok. erewrite run_bind; [|exact Hloop].
    rewrite run_get. unfold indexed_records. rewrite Hcon1, Ht.
    rewrite run_lift_Ok, run_put. exact Hdel.
  - rewrite Hcon3. unfold self2, t'. cbn.
    by rewrite foldl_delete_record_id_filter.
  - by rewrite Hcon3.
  - intros k. rewrite Hlookup. unfold self2. cbn. by rewrite Hdata1.
  - by rewrite Hm3.
Qed.

(** X6. When every given id is indexed, [unindex(data)] succeeds: the
    postings of the given ids are gone from the committed table and the
    other postings are kept in order, the given ids are gone from
    [indexed_data] and the other records are kept, and the invariants of
    the gazetteer still hold. *)
Theorem GazetteerMatching_unindex_removes (self : Gazette) (data : Data)
    (t : Sql.Table) (b0 : Blocker) :
  blocker (gz_matching self) = Some b0 →
  truth b0 = true →
  working (con self) = Some t →
  gazetteer_consistent self →
  (∀ field (r : RecordDict),
      field ∈ index_fields b0 → r ∈ values data → is_Some (r !! field)) →
  NoDup (keys data) →
  (∀ k, k ∈ keys data → is_Some (indexed_data self !! k)) →
  ∃ self' : Gazette,
    GazetteerMatching_unindex data self = (Ok tt, self') ∧
    working (con self') = Some (filter (λ p, p.2 ∉ keys data) t) ∧
    (∀ k, indexed_data self' !! k =
          if decide (k ∈ keys data) then None else indexed_data self !! k) ∧
    gazetteer_consistent self'.
Proof.
  intros Hb Htruth Ht [_ Hcons] Hfields Hnd Hks.
  destruct (GazetteerMatching_unindex_run self data t b0)
    as (self' & Hrun & Hwork & Hcommit & Hlookup & _); try done.
  exists self'. split; [done |]. split; [done |]. split; [done |].
  split; [done |]. rewrite Hwork. intros t' [= <-].
  destruct (Hcons t Ht) as [Hndt Hrec]. split; [by apply NoDup_filter |].
  intros p Hp. apply list_elem_of_filter in Hp as [Hp Hin].
  rewrite Hlookup, decide_False by done. by apply Hrec.
Qed.


End IndexProofs.

(** ** Query blocks *)

(** The id pairs of a block. *)
Local Abbreviation block_ids := (λ block : list RecordPair, pair_ids <$> block).







Section BlocksProofs.
Context {Obj Blocker : Type}.
Context {blocking : Blocking Obj Blocker} {core : Core Obj}
        {multiprocessing : Multiprocessing} {pickle : Pickle Obj}.

Abbreviation Gazette' := (GazetteerMatching (Obj := Obj) (Blocker := Blocker)).




End BlocksProofs.

Section SearchProofs.
Context {Obj Blocker : Type}.
Context {blocking : Blocking Obj Blocker} {core : Core Obj}
        {multiprocessing : Multiprocessing} {pickle : Pickle Obj}.

Abbreviation Gazette'' := (GazetteerMatching (Obj := Obj) (Blocker := Blocker)).




End SearchProofs.

(** ** Search results and singletons *)

(** X12. A query id that no result carries is emitted exactly once by
    [_format_search_results], with the empty tuple. *)
Theorem format_search_results_unmatched (search_d : Data)
    (results : list (list ScoredPair)) (k : RecordID) :
  k ∈ keys search_d →
  (∀ r, r ∈ results → last (query_id <$> r) ≠ Some k) →
  entry_count k (GazetteerMatching_format_search_results search_d results)
    = 1%nat ∧
  ∀ e, e ∈ GazetteerMatching_format_search_results search_d results →
       e.1 = Some k → e = (Some k, []).
Proof.
  intros Hk Hnone. split.
  - rewrite format_search_results_entry_count by done. f_equal.
    apply length_zero_iff_nil, elem_of_nil_inv. intros r Hr.
    apply list_elem_of_filter in Hr as [Hr Hin]. by apply (Hnone r Hin).
  - intros e He Hfst. unfold GazetteerMatching_format_search_results in He.
    apply elem_of_app in He as [He | He].
    + apply list_elem_of_fmap in He as (r & -> & Hr).
      by destruct (Hnone r Hr).
    + apply list_elem_of_fmap in He as (k' & -> & _).
      cbn in Hfst. by injection Hfst as ->.
Qed.

(** X13. [_add_singletons] keeps the given clusters in front and adds
    one cluster [((k,), (1.0,))] for every id of the data that is in none
    of them, each once; run again on its own output it adds nothing. *)
Theorem DedupeMatching_add_singletons_spec (data : Data)
    (clusters : list Cluster) :
  ∃ singles : list Cluster,
    DedupeMatching_add_singletons data clusters = clusters ++ singles ∧
    NoDup singles ∧
    (∀ c, c ∈ singles ↔
          ∃ k, c = ([k], [1%Q]) ∧ k ∈ keys data ∧
               k ∉ concat (fst <$> clusters)) ∧
    DedupeMatching_add_singletons data (clusters ++ singles) =
      clusters ++ singles.
Proof.
  unfold DedupeMatching_add_singletons.
  set (rest := elements (remaining_singletons (list_to_set (keys data)) clusters)).
  assert (∀ k, k ∈ rest ↔ k ∈ keys data ∧ k ∉ concat (fst <$> clusters))
    as Hrest.
  { intros k. unfold rest.
    by rewrite elem_of_elements, elem_of_remaining_singletons,
      elem_of_list_to_set. }
  eexists. split; [reflexivity |]. split; [|split].
  - apply NoDup_fmap_2; [|apply NoDup_elements]. by intros k1 k2 [= ->].
  - intros c. rewrite list_elem_of_fmap. split.
    + intros (k & -> & Hk). exists k. split; [done |]. by apply Hrest.
    + intros (k & -> & Hk). exists k. split; [done |]. by apply Hrest.
  - set (singles := (λ singleton, ([singleton], [1%Q])) <$> rest).
    assert (remaining_singletons (list_to_set (keys data)) (clusters ++ singles)
            = ∅) as ->.
    { apply set_eq. intros k.
      rewrite elem_of_remaining_singletons, elem_of_list_to_set, fmap_app,
        concat_app, elem_of_app.
      split; [|by intros ?%not_elem_of_empty]. intros [Hk Hnot].
      exfalso. apply Hnot.
      destruct (decide (k ∈ concat (fst <$> clusters))) as [? | Hout];
        [by left | right].
      apply elem_of_concat. exists [k]. split; [|by left].
      apply list_elem_of_fmap. exists ([k], [1%Q]). split; [done |].
      apply list_elem_of_fmap. exists k. split; [done |]. by apply Hrest. }
    rewrite elements_empty. cbn. by rewrite app_nil_r.
Qed.

(** ** Training *)

(** X14. [flatten_training] gives every example one label: the matches
    come first with label 1, then the distinct pairs with label 0. *)
Theorem flatten_training_labels (training_pairs : TrainingData) :
  length (flatten_training training_pairs).1 =
    length (flatten_training training_pairs).2 ∧
  zip (flatten_training training_pairs).1 (flatten_training training_pairs).2 =
    ((λ ex, (ex, 1)) <$> td_match training_pairs) ++
    ((λ ex, (ex, 0)) <$> td_distinct training_pairs).
Proof.
  unfold flatten_training. cbn [fst snd]. split.
  - by rewrite !length_app, !length_replicate.
  - assert (∀ (l : list TrainingExample) (z : Z),
              zip l (replicate (length l) z) = (λ ex, (ex, z)) <$> l) as Hzip.
    { intros l z. induction l as [|x l IH]; [done |]. cbn. by rewrite IH. }
    rewrite zip_with_app by (by rewrite length_replicate).
    by rewrite !Hzip.
Qed.

Section TrainingProofs.
Context {Obj Blocker Learner : Type}.
Context {blocking : Blocking Obj Blocker} {core : Core Obj}
        {multiprocessing : Multiprocessing} {pickle : Pickle Obj}
        {datamodel : Datamodel Obj} {labeler : Labeler Obj Learner}
        {learning : Learning Obj Learner}.

Abbreviation Trainee :=
  (ActiveMatching (Obj := Obj) (Blocker := Blocker) (Learner := Learner)).

(** X3. [join] rejects a constraint outside the three options before it
    reads the matcher or the data: the assertion error carries the
    message built from the constraint, and the matcher is unchanged. *)
Theorem RecordLinkMatching_join_invalid_constraint
    (self : Matching (Obj := Obj) (Blocker := Blocker))
    (data_1 data_2 : Data) (threshold : Q) (constraint : string) :
  constraint ≠ "one-to-one"%string →
  constraint ≠ "many-to-one"%string →
  constraint ≠ "many-to-many"%string →
  RecordLinkMatching_join data_1 data_2 threshold constraint self =
    (Raise (AssertionError (constraint_message constraint)), self).
Proof.
  intros H1 H2 H3. unfold RecordLinkMatching_join.
  assert (valid_constraint constraint = false) as ->; [|done].
  unfold valid_constraint. apply bool_decide_eq_false.
  rewrite !elem_of_cons, elem_of_nil. tauto.
Qed.

(** X15. [mark_pairs] checks the first pair of each list only: when
    those are records of the data model, the call succeeds whatever the
    other pairs are, all given pairs are appended to the training pairs
    behind the ones already there, a truthy learner is told the new
    examples, and the warning is issued exactly when both lists are
    empty. *)
Theorem ActiveMatching_mark_pairs_checks_first (self : Trainee)
    (labeled_pairs : TrainingData) (dm : Obj) :
  data_model (am_matching self) = Some dm →
  (∀ p, head (td_match labeled_pairs) = Some p →
        datamodel_check dm p.1 = Ok tt ∧ datamodel_check dm p.2 = Ok tt) →
  (∀ p, head (td_distinct labeled_pairs) = Some p →
        datamodel_check dm p.1 = Ok tt ∧ datamodel_check dm p.2 = Ok tt) →
  ∃ (warnings : list string) (self' : Trainee),
    ActiveMatching_mark_pairs labeled_pairs self = (Ok warnings, self') ∧
    (warnings = [] ↔
     td_match labeled_pairs ≠ [] ∨ td_distinct labeled_pairs ≠ []) ∧
    td_match (training_pairs self') =
      td_match (training_pairs self) ++ td_match labeled_pairs ∧
    td_distinct (training_pairs self') =
      td_distinct (training_pairs self) ++ td_distinct labeled_pairs ∧
    am_matching self' = am_matching self ∧
    active_learner self' =
      match active_learner self with
      | Some learner =>
          if truth learner
          then Some (learner_mark learner
                       (td_match labeled_pairs ++ td_distinct labeled_pairs)
                       (flatten_training labeled_pairs).2)
          else Some learner
      | None => None
      end.
Proof.
  intros Hdm Hmatch Hdistinct.
  assert (∀ l : list TrainingExample,
            (∀ p, head l = Some p →
                  datamodel_check dm p.1 = Ok tt ∧
                  datamodel_check dm p.2 = Ok tt) →
            match l with
            | first_pair :: _ => ActiveMatching_checkRecordPair self first_pair
            | [] => Ok tt
            end = Ok tt) as Hcheck.
  { intros [|p l] Hp; [done |]. destruct (Hp p eq_refl) as [H1 H2].
    unfold ActiveMatching_checkRecordPair. rewrite Hdm. cbn.
    rewrite H1. cbn. exact H2. }
  unfold ActiveMatching_mark_pairs, ActiveMatching_checkTrainingPairs.
  rewrite run_get, (Hcheck _ Hmatch), (Hcheck _ Hdistinct).
  cbn [mbind result_bind]. rewrite run_lift_Ok, run_put.
  cbn [set_training_pairs active_learner].
  destruct (active_learner self) as [learner|] eqn:Hlearner.
  - destruct (truth learner) eqn:Htruth.
    + eexists. eexists. split; [reflexivity |]. cbn.
      split; [|done].
      destruct (td_distinct labeled_pairs), (td_match labeled_pairs);
        (split; [intros ?; first [done | by left | by right]
                | intros [H | H]; first [done | by destruct H]]).
    + eexists. eexists. split; [reflexivity |]. cbn.
      split; [|done].
      destruct (td_distinct labeled_pairs), (td_match labeled_pairs);
        (split; [intros ?; first [done | by left | by right]
                | intros [H | H]; first [done | by destruct H]]).
  - eexists. eexists. split; [reflexivity |]. cbn.
    split; [|done].
    destruct (td_distinct labeled_pairs), (td_match labeled_pairs);
      (split; [intros ?; first [done | by left | by right]
              | intros [H | H]; first [done | by destruct H]]).
Qed.

(** X16. [mark_pairs] validates before it changes anything: when the
    first match pair is not a record pair of the data model, the error of
    the check comes out and the matcher is unchanged. *)
Theorem ActiveMatching_mark_pairs_invalid (self : Trainee)
    (labeled_pairs : TrainingData) (dm : Obj) (first_pair : TrainingExample)
    (rest : list TrainingExample) (e : exn) :
  data_model (am_matching self) = Some dm →
  td_match labeled_pairs = first_pair :: rest →
  (datamodel_check dm first_pair.1 = Raise e ∨
   datamodel_check dm first_pair.1 = Ok tt ∧
   datamodel_check dm first_pair.2 = Raise e) →
  ActiveMatching_mark_pairs labeled_pairs self = (Raise e, self).
Proof.
  intros Hdm Hmatch Hbad.
  unfold ActiveMatching_mark_pairs, ActiveMatching_checkTrainingPairs.
  rewrite run_get, Hmatch. unfold ActiveMatching_checkRecordPair.
  rewrite Hdm. cbn [getattr mbind result_bind].
  destruct Hbad as [-> | [-> ->]]; reflexivity.
Qed.

(** X17. [write_settings] on a matcher that has not been trained fails
    on the missing predicates, after the data model and the classifier
    have been written to the file. *)
Theorem ActiveMatching_write_settings_untrained (self : Trainee)
    (dm cl : Obj) (file_obj : BinaryIO) :
  data_model (am_matching self) = Some dm →
  classifier (am_matching self) = Some cl →
  predicates (am_matching self) = None →
  ActiveMatching_write_settings self file_obj =
    (Raise (AttributeError "predicates"),
     file_obj ++ pickle_dumps dm ++ pickle_dumps cl).
Proof.
  intros Hdm Hcl Hps. unfold ActiveMatching_write_settings.
  rewrite Hdm, Hcl, Hps. cbn [getattr].
  rewrite run_lift_Ok. unfold pickle_dump.
  rewrite run_bind with (a := tt) (s' := file_obj ++ pickle_dumps dm)
    by reflexivity.
  rewrite run_lift_Ok.
  rewrite run_bind with (a := tt)
    (s' := (file_obj ++ pickle_dumps dm) ++ pickle_dumps cl) by reflexivity.
  rewrite run_lift_Raise. by rewrite <- app_assoc.
Qed.

(** The state [train] leaves behind. *)
Lemma ActiveMatching_train_run (self : Trainee) (recall : Q)
    (index_predicates : bool) (learner : Learner) (dm cl : Obj) :
  active_learner self = Some learner →
  truth learner = true →
  data_model (am_matching self) = Some dm →
  classifier (am_matching self) = Some cl →
  ActiveMatching_train recall index_predicates self =
    (Ok tt,
     set_am_matching
       {| num_cores := num_cores (am_matching self);
          blocker :=
            Some (resetIndices
                    (Blocker_new
                       (learn_predicates learner recall index_predicates)));
          data_model := Some dm;
          classifier :=
            Some (classifier_fit cl
                    (datamodel_distances dm
                       (flatten_training (training_pairs self)).1)
                    (flatten_training (training_pairs self)).2);
          predicates :=
            Some (learn_predicates learner recall index_predicates) |}
       self).
Proof.
  intros Hlearner Htruth Hdm Hcl. unfold ActiveMatching_train.
  rewrite run_get, Hlearner. cbn [truth option_truthy].
  rewrite Htruth. cbn [py_assert]. rewrite run_lift_Ok.
  unfold flatten_training. rewrite Hcl, Hdm. cbn [getattr].
  rewrite !run_lift_Ok, run_put. reflexivity.
Qed.

(** X18. [train] on a matcher without a truthy learner raises the
    assertion error and changes nothing. *)
Theorem ActiveMatching_train_needs_sample (self : Trainee) (recall : Q)
    (index_predicates : bool) :
  truth (active_learner self) = false →
  ActiveMatching_train recall index_predicates self =
    (Raise (AssertionError "Please initialize with the sample method"), self).
Proof.
  intros Htruth. unfold ActiveMatching_train.
  rewrite run_get, Htruth. reflexivity.
Qed.

(** X19. Training, writing the settings and loading them: [train]
    succeeds on a matcher with a learner, [write_settings] then succeeds,
    and the static matcher built from the file holds the data model, the
    fitted classifier and the learned predicates of the trained matcher,
    with a blocker built from the same predicates. *)
Theorem ActiveMatching_train_write_settings_load
    {pickle_ok : PickleRoundTrip Obj} (self : Trainee) (recall : Q)
    (index_predicates : bool) (n : option nat) (learner : Learner)
    (dm cl : Obj) :
  active_learner self = Some learner →
  truth learner = true →
  data_model (am_matching self) = Some dm →
  classifier (am_matching self) = Some cl →
  ∃ (self' : Trainee) (settings_file : BinaryIO)
    (static : Matching (Obj := Obj) (Blocker := Blocker)),
    ActiveMatching_train recall index_predicates self = (Ok tt, self') ∧
    ActiveMatching_write_settings self' [] = (Ok tt, settings_file) ∧
    StaticMatching_init settings_file n = Ok static ∧
    data_model static = data_model (am_matching self') ∧
    classifier static = classifier (am_matching self') ∧
    predicates static = predicates (am_matching self') ∧
    predicates static =
      Some (learn_predicates learner recall index_predicates) ∧
    blocker static =
      Some (Blocker_new (learn_predicates learner recall index_predicates)) ∧
    blocker (am_matching self') =
      Some (resetIndices
              (Blocker_new (learn_predicates learner recall index_predicates))) ∧
    training_pairs self' = training_pairs self ∧
    active_learner self' = active_learner self.
Proof.
  intros Hlearner Htruth Hdm Hcl.
  eexists. eexists. eexists.
  split; [by apply ActiveMatching_train_run |].
  split; [reflexivity |]. split.
  - cbn. rewrite <- (app_nil_r (pickle_dumps (learn_predicates _ _ _))).
    rewrite <- !app_assoc. apply StaticMatching_init_reads_in_order.
  - done.
Qed.

(** X20. [Dedupe._sample] on data whose first record fits the data
    model sets the learner: it is built from the data, with the length
    of the data as the original length when none or 0 is given, and it is
    told the training pairs the matcher already holds.  The training
    pairs and the matcher's settings stay as they were. *)
Theorem Dedupe_sample_learner (self : Trainee) (data : Data)
    (sample_size : nat) (blocked_proportion : Q)
    (original_length : option nat) (dm : Obj) (k : RecordID)
    (first : RecordDict) (rest : Data) :
  data = (k, first) :: rest →
  data_model (am_matching self) = Some dm →
  datamodel_check dm first = Ok tt →
  Dedupe_sample data sample_size blocked_proportion original_length self =
    (Ok tt,
     set_active_learner
       (Some (learner_mark
                (DedupeDisagreementLearner dm data blocked_proportion
                   sample_size
                   (if decide (default 0%nat original_length = 0%nat)
                    then length data
                    else default 0%nat original_length)
                   (td_match (training_pairs self) ++
                    td_distinct (training_pairs self)))
                (td_match (training_pairs self) ++
                 td_distinct (training_pairs self))
                (flatten_training (training_pairs self)).2))
       self).
Proof.
  intros -> Hdm Hcheck. unfold Dedupe_sample, Dedupe_checkData.
  rewrite run_get. cbn [values fmap list_fmap snd].
  rewrite Hdm. cbn [getattr mbind result_bind]. rewrite Hcheck.
  destruct original_length as [[|m]|]; reflexivity.
Qed.

(** X21. [Link._sample] reports an empty first dataset before it looks
    at the second one, an empty second dataset before it checks any
    record, and in both cases sets no learner. *)
Theorem Link_sample_empty (self : Trainee) (data_1 data_2 : Data)
    (sample_size : nat) (blocked_proportion : Q)
    (original_length_1 original_length_2 : option nat) :
  data_1 = [] ∨ data_2 = [] →
  Link_sample data_1 data_2 sample_size blocked_proportion
    original_length_1 original_length_2 self =
    (Raise (ValueError
              (if decide (data_1 = [])
               then "Dictionary of records from first dataset is empty."
               else "Dictionary of records from second dataset is empty.")),
     self).
Proof.
  intros Hempty. unfold Link_sample, Link_checkData. rewrite run_get.
  destruct data_1 as [|kr1 data_1]; [reflexivity |].
  destruct Hempty as [? | ->]; [done |]. reflexivity.
Qed.

End TrainingProofs.

(** ** The properties on the small instance *)

Section FurtherInstance.
Import Toy.
Local Existing Instances fields_blocker constant_core first_pair_clustering
  four_cores byte_pickle byte_datamodel list_labeler ToyLink.byte_learning.

Lemma record_has_name (name city : string) (field : string) :
  field ∈ index_fields tt → is_Some (record name city !! field).
Proof. intros Hfield. apply list_elem_of_singleton in Hfield as ->. by eexists. Qed.

Lemma fields_present (data : Data) :
  Forall (λ kr, ∃ name city, kr.2 = record name city) data →
  ∀ (b : unit) (field : string) (r : RecordDict),
    field ∈ index_fields b → r ∈ values data → is_Some (r !! field).
Proof.
  intros Hdata [] field r Hfield Hr. unfold values in Hr.
  apply list_elem_of_fmap in Hr as (kr & -> & Hkr).
  apply (proj1 (Forall_forall _ _) Hdata) in Hkr as (name & city & ->).
  by apply record_has_name.
Qed.

Lemma people_postings_indexed (p : Sql.Posting) :
  p ∈ people_postings → is_Some (indexed_data indexed !! p.2).
Proof.
  intros Hp. unfold people_postings in Hp.
  repeat (apply elem_of_cons in Hp as [-> | Hp]; [by eexists |]).
  by apply elem_of_nil in Hp.
Qed.

Lemma indexed_consistent : gazetteer_consistent indexed.
Proof.
  split; [reflexivity |]. intros t [= <-]. split.
  - apply (bool_decide_unpack _). vm_compute. exact I.
  - apply people_postings_indexed.
Qed.

Lemma DedupeMatching_pairs_exact_witness :
  blocker trained = Some tt ∧
  truth tt = true ∧
  ∃ out : list RecordPair,
    DedupeMatching_pairs people trained =
      (Ok out, set_blocker (Some (resetIndices (indexAll tt people))) trained) ∧
    (∀ a b : Z,
        (a, b) ∈ pair_ids <$> out ↔
        a < b ∧
        ∃ key : BlockKey,
          (key, a) ∈ blocker_call (indexAll tt people) people false ∧
          (key, b) ∈ blocker_call (indexAll tt people) people false) ∧
    Forall (λ p : RecordPair,
              getitem people p.1.1 = Ok p.1.2 ∧
              getitem people p.2.1 = Ok p.2.2) out.
Proof.
  split; [reflexivity |]. split; [reflexivity |].
  exact (DedupeMatching_pairs_exact trained people tt eq_refl eq_refl).
Defined.

(** Record 10 of the registry shares the name of records 1 and 2. *)
Example RecordLinkMatching_pairs_registry :
  ∃ out : list RecordPair,
    fst (RecordLinkMatching_pairs people ToyLink.registry trained) = Ok out ∧
    pair_ids <$> out = [(1, 10); (2, 10)].
Proof.
  exists [((1, record "Pat" "Oslo"), (10, record "Pat" "Bonn"));
          ((2, record "Pat" "Oslo"), (10, record "Pat" "Bonn"))].
  split; vm_compute; reflexivity.
Qed.

Lemma RecordLinkMatching_pairs_exact_witness :
  blocker trained = Some tt ∧
  truth tt = true ∧
  ∃ out : list RecordPair,
    RecordLinkMatching_pairs people ToyLink.registry trained =
      (Ok out,
       set_blocker (Some (resetIndices (indexAll tt ToyLink.registry)))
         trained) ∧
    NoDup (pair_ids <$> out) ∧
    (∀ a b : RecordID,
        (a, b) ∈ pair_ids <$> out ↔
        ∃ key : BlockKey,
          (key, a) ∈ blocker_call (indexAll tt ToyLink.registry) people false ∧
          (key, b) ∈ blocker_call (indexAll tt ToyLink.registry)
                       ToyLink.registry true) ∧
    Forall (λ p : RecordPair,
              getitem people p.1.1 = Ok p.1.2 ∧
              getitem ToyLink.registry p.2.1 = Ok p.2.2) out.
Proof.
  split; [reflexivity |]. split; [reflexivity |].
  exact (RecordLinkMatching_pairs_exact trained people ToyLink.registry tt
           eq_refl eq_refl).
Defined.

Lemma RecordLinkMatching_join_invalid_constraint_witness :
  "one-to-many"%string ≠ "one-to-one"%string ∧
  "one-to-many"%string ≠ "many-to-one"%string ∧
  "one-to-many"%string ≠ "many-to-many"%string ∧
  RecordLinkMatching_join people ToyLink.registry (1 # 2)%Q "one-to-many"
    trained =
    (Raise (AssertionError (constraint_message "one-to-many")), trained).
Proof.
  assert ("one-to-many"%string ≠ "one-to-one"%string) as H1 by discriminate.
  assert ("one-to-many"%string ≠ "many-to-one"%string) as H2 by discriminate.
  assert ("one-to-many"%string ≠ "many-to-many"%string) as H3 by discriminate.
  split; [exact H1 |]. split; [exact H2 |]. split; [exact H3 |].
  exact (RecordLinkMatching_join_invalid_constraint trained people
           ToyLink.registry (1 # 2)%Q "one-to-many" H1 H2 H3).
Defined.

(** A valid constraint on the same data gives the links. *)
Example RecordLinkMatching_join_registry :
  fst (RecordLinkMatching_join people ToyLink.registry (1 # 2)%Q
         "many-to-many" trained)
    = Ok [scored 1 10 (9 # 10); scored 2 10 (9 # 10)] ∧
  fst (RecordLinkMatching_join people ToyLink.registry (1 # 2)%Q
         "one-to-one" trained)
    = Ok [scored 1 10 (9 # 10)].
Proof. split; vm_compute; reflexivity. Qed.

Lemma NoDup_keys_people : NoDup (keys people).
Proof. apply (bool_decide_unpack _). vm_compute. exact I. Qed.

Lemma GazetteerMatching_index_lookup_witness :
  blocker (gz_matching gazetteer) = Some tt ∧
  truth tt = true ∧
  NoDup (keys people) ∧
  ∃ (self' : GazetteerMatching) (t' : Sql.Table),
    GazetteerMatching_index people gazetteer = (Ok tt, self') ∧
    working (con self') = Some t' ∧
    committed (con self') = Some t' ∧
    (∀ p : Sql.Posting,
        p ∈ t' ↔
        p ∈ default [] (working (con gazetteer)) ∨
        p ∈ blocker_call (indexAll tt people) people true) ∧
    (∀ (k : RecordID) (r : RecordDict),
        (k, r) ∈ people → indexed_data self' !! k = Some r) ∧
    ∀ k : RecordID,
      k ∉ keys people →
      indexed_data self' !! k = indexed_data gazetteer !! k.
Proof.
  split; [reflexivity |]. split; [reflexivity |].
  split; [exact NoDup_keys_people |].
  exact (GazetteerMatching_index_lookup gazetteer people tt eq_refl eq_refl
           NoDup_keys_people).
Defined.

Lemma GazetteerMatching_index_consistent_witness :
  truth (blocker (gz_matching indexed)) = true ∧
  gazetteer_consistent indexed ∧
  ∃ self' : GazetteerMatching,
    GazetteerMatching_index [(4, record "Kim" "Lima")] indexed =
      (Ok tt, self') ∧
    gazetteer_consistent self'.
Proof.
  split; [reflexivity |]. split; [exact indexed_consistent |].
  exact (GazetteerMatching_index_consistent indexed
           [(4, record "Kim" "Lima")] eq_refl indexed_consistent).
Defined.

Lemma record_1_present :
  (∀ (b : unit) (field : string) (r : RecordDict),
      field ∈ index_fields b → r ∈ values [(1, record "Pat" "Oslo")] →
      is_Some (r !! field)) ∧
  NoDup (keys [(1, record "Pat" "Oslo")]) ∧
  ∀ k : RecordID,
    k ∈ keys [(1, record "Pat" "Oslo")] → is_Some (indexed_data indexed !! k).
Proof.
  split; [|split].
  - apply fields_present. repeat constructor. by eexists _, _.
  - apply NoDup_singleton.
  - intros k Hk. apply list_elem_of_singleton in Hk as ->. by eexists.
Qed.

Lemma GazetteerMatching_unindex_removes_witness :
  let data := [(1, record "Pat" "Oslo")] in
  blocker (gz_matching indexed) = Some tt ∧
  truth tt = true ∧
  working (con indexed) = Some people_postings ∧
  gazetteer_consistent indexed ∧
  (∀ (field : string) (r : RecordDict),
      field ∈ index_fields tt → r ∈ values data → is_Some (r !! field)) ∧
  NoDup (keys data) ∧
  (∀ k : RecordID, k ∈ keys data → is_Some (indexed_data indexed !! k)) ∧
  ∃ self' : GazetteerMatching,
    GazetteerMatching_unindex data indexed = (Ok tt, self') ∧
    working (con self') =
      Some (filter (λ p : BlockKey * RecordID, p.2 ∉ keys data)
              people_postings) ∧
    (∀ k : RecordID,
        indexed_data self' !! k =
        if decide (k ∈ keys data) then None else indexed_data indexed !! k) ∧
    gazetteer_consistent self'.
Proof.
  intros data. destruct record_1_present as (Hfields & Hnd & Hks).
  split; [reflexivity |]. split; [reflexivity |]. split; [reflexivity |].
  split; [exact indexed_consistent |]. split; [exact (Hfields tt) |].
  split; [exact Hnd |]. split; [exact Hks |].
  exact (GazetteerMatching_unindex_removes indexed data people_postings tt
           eq_refl eq_refl eq_refl indexed_consistent (Hfields tt) Hnd Hks).
Defined.

(** What is left after record 1 is unindexed. *)
Example unindex_record_1 :
  let run := GazetteerMatching_unindex [(1, record "Pat" "Oslo")] indexed in
  fst run = Ok tt ∧
  working (con (snd run))
    = Some [("name:Pat", 2); ("city:Oslo", 2);
            ("name:Sam", 3); ("city:Rome", 3)]%string ∧
  indexed_data (snd run) !! 1 = None.
Proof. cbv zeta. repeat apply conj; vm_compute; reflexivity. Qed.




(** Two query records with the same name: one block each. *)
Example blocks_two_queries :
  ∃ blocks : list (list RecordPair),
    fst (GazetteerMatching_blocks
           [(8, record "Pat" "Rome"); (7, record "Pat" "Paris")] indexed)
      = Ok blocks ∧
    (λ block : list RecordPair, pair_ids <$> block) <$> blocks
      = [[(7, 1); (7, 2)]; [(8, 1); (8, 2); (8, 3)]].
Proof.
  exists [[((7, record "Pat" "Paris"), (1, record "Pat" "Oslo"));
           ((7, record "Pat" "Paris"), (2, record "Pat" "Oslo"))];
          [((8, record "Pat" "Rome"), (1, record "Pat" "Oslo"));
           ((8, record "Pat" "Rome"), (2, record "Pat" "Oslo"));
           ((8, record "Pat" "Rome"), (3, record "Sam" "Rome"))]].
  split; vm_compute; reflexivity.
Qed.




Lemma query_8_unmatched :
  8 ∈ keys [(7, record "Pat" "Paris"); (8, record "Lee" "Kyiv")] ∧
  ∀ r : list ScoredPair,
    r ∈ [[scored 7 1 (9 # 10)]] → last (query_id <$> r) ≠ Some 8.
Proof.
  split; [right; left |].
  intros r Hr. by apply list_elem_of_singleton in Hr as ->.
Qed.

Lemma format_search_results_unmatched_witness :
  let search_d := [(7, record "Pat" "Paris"); (8, record "Lee" "Kyiv")] in
  let results := [[scored 7 1 (9 # 10)]] in
  8 ∈ keys search_d ∧
  (∀ r : list ScoredPair, r ∈ results → last (query_id <$> r) ≠ Some 8) ∧
  entry_count 8 (GazetteerMatching_format_search_results search_d results)
    = 1%nat ∧
  ∀ e : option RecordID * list (RecordID * Q),
    e ∈ GazetteerMatching_format_search_results search_d results →
    e.1 = Some 8 → e = (Some 8, []).
Proof.
  intros search_d results. destruct query_8_unmatched as [Hk Hnone].
  split; [exact Hk |]. split; [exact Hnone |].
  exact (format_search_results_unmatched search_d results 8 Hk Hnone).
Defined.

Lemma ActiveMatching_write_settings_untrained_witness :
  data_model (am_matching ToyLink.novice) = Some Byte.x00 ∧
  classifier (am_matching ToyLink.novice) = Some Byte.x01 ∧
  predicates (am_matching ToyLink.novice) = None ∧
  ActiveMatching_write_settings ToyLink.novice [] =
    (Raise (AttributeError "predicates"), [Byte.x00; Byte.x01]).
Proof.
  split; [reflexivity |]. split; [reflexivity |]. split; [reflexivity |].
  exact (ActiveMatching_write_settings_untrained ToyLink.novice
           Byte.x00 Byte.x01 [] eq_refl eq_refl eq_refl).
Defined.

Lemma ActiveMatching_train_needs_sample_witness :
  truth (active_learner ToyLink.novice) = false ∧
  ActiveMatching_train (95 # 100)%Q true ToyLink.novice =
    (Raise (AssertionError "Please initialize with the sample method"),
     ToyLink.novice).
Proof.
  split; [reflexivity |].
  exact (ActiveMatching_train_needs_sample ToyLink.novice (95 # 100)%Q true
           eq_refl).
Defined.

Lemma ActiveMatching_train_write_settings_load_witness :
  let learner := [(record "Pat" "Oslo", record "Pat" "Oslo")] in
  PickleRoundTrip Obj ∧
  active_learner teacher = Some learner ∧
  truth learner = true ∧
  data_model (am_matching teacher) = Some Byte.x00 ∧
  classifier (am_matching teacher) = Some Byte.x01 ∧
  ∃ (self' : ActiveMatching) (settings_file : BinaryIO)
    (static : Matching (Obj := Obj) (Blocker := unit)),
    ActiveMatching_train (95 # 100)%Q true teacher = (Ok tt, self') ∧
    ActiveMatching_write_settings self' [] = (Ok tt, settings_file) ∧
    StaticMatching_init settings_file (Some 4%nat) = Ok static ∧
    data_model static = data_model (am_matching self') ∧
    classifier static = classifier (am_matching self') ∧
    predicates static = predicates (am_matching self') ∧
    predicates static = Some (learn_predicates learner (95 # 100)%Q true) ∧
    blocker static =
      Some (Blocker_new (learn_predicates learner (95 # 100)%Q true)) ∧
    blocker (am_matching self') =
      Some (resetIndices
              (Blocker_new (learn_predicates learner (95 # 100)%Q true))) ∧
    training_pairs self' = training_pairs teacher ∧
    active_learner self' = active_learner teacher.
Proof.
  intros learner. split; [exact byte_pickle_round_trip |].
  split; [reflexivity |]. split; [reflexivity |]. split; [reflexivity |].
  split; [reflexivity |].
  exact (ActiveMatching_train_write_settings_load
           (pickle_ok := byte_pickle_round_trip) teacher (95 # 100)%Q true
           (Some 4%nat) learner Byte.x00 Byte.x01
           eq_refl eq_refl eq_refl eq_refl).
Defined.

(** The file written after training holds the fitted classifier. *)
Example train_then_write_settings :
  let trained := snd (ActiveMatching_train (95 # 100)%Q true teacher) in
  ActiveMatching_write_settings trained []
    = (Ok tt, [Byte.x00; Byte.x03; Byte.x02]).
Proof. vm_compute. reflexivity. Qed.

Lemma Dedupe_sample_learner_witness :
  people = (1, record "Pat" "Oslo") ::
           [(2, record "Pat" "Oslo"); (3, record "Sam" "Rome")] ∧
  data_model (am_matching ToyLink.novice) = Some Byte.x00 ∧
  datamodel_check Byte.x00 (record "Pat" "Oslo") = Ok tt ∧
  Dedupe_sample people 10 (1 # 2)%Q (Some 0%nat) ToyLink.novice =
    (Ok tt,
     set_active_learner
       (Some (learner_mark
                (DedupeDisagreementLearner Byte.x00 people (1 # 2)%Q 10 3
                   [])
                [] []))
       ToyLink.novice).
Proof.
  split; [reflexivity |]. split; [reflexivity |]. split; [reflexivity |].
  exact (Dedupe_sample_learner ToyLink.novice people 10 (1 # 2)%Q
           (Some 0%nat) Byte.x00 1 (record "Pat" "Oslo")
           [(2, record "Pat" "Oslo"); (3, record "Sam" "Rome")]
           eq_refl eq_refl eq_refl).
Defined.

Lemma Link_sample_empty_witness :
  (people = [] ∨ @nil (RecordID * RecordDict) = []) ∧
  Link_sample people [] 10 (1 # 2)%Q None None ToyLink.novice =
    (Raise (ValueError "Dictionary of records from second dataset is empty."),
     ToyLink.novice).
Proof.
  split; [by right |].
  exact (Link_sample_empty ToyLink.novice people [] 10 (1 # 2)%Q None None
           (or_intror eq_refl)).
Defined.

(** With both datasets empty the first one is reported. *)
Example Link_sample_both_empty :
  fst (Link_sample [] [] 10 (1 # 2)%Q None None ToyLink.novice)
  = Raise (ValueError "Dictionary of records from first dataset is empty.").
Proof. reflexivity. Qed.

End FurtherInstance.

Section NameInstance.
Import Toy.
Local Existing Instances fields_blocker constant_core four_cores byte_pickle
  ToyLink.name_datamodel list_labeler ToyLink.byte_learning.

Lemma labels_first_pairs_valid :
  (∀ p, head (td_match ToyLink.labels) = Some p →
        datamodel_check Byte.x00 p.1 = Ok tt ∧
        datamodel_check Byte.x00 p.2 = Ok tt) ∧
  (∀ p, head (td_distinct ToyLink.labels) = Some p →
        datamodel_check Byte.x00 p.1 = Ok tt ∧
        datamodel_check Byte.x00 p.2 = Ok tt).
Proof. split; intros p [= <-]; split; reflexivity. Qed.

Lemma ActiveMatching_mark_pairs_checks_first_witness :
  data_model (am_matching ToyLink.novice) = Some Byte.x00 ∧
  (∀ p, head (td_match ToyLink.labels) = Some p →
        datamodel_check Byte.x00 p.1 = Ok tt ∧
        datamodel_check Byte.x00 p.2 = Ok tt) ∧
  (∀ p, head (td_distinct ToyLink.labels) = Some p →
        datamodel_check Byte.x00 p.1 = Ok tt ∧
        datamodel_check Byte.x00 p.2 = Ok tt) ∧
  datamodel_check Byte.x00 (∅ : RecordDict) =
    Raise (ValueError "Records do not line up with data model") ∧
  ∃ (warnings : list string) (self' : ActiveMatching),
    ActiveMatching_mark_pairs ToyLink.labels ToyLink.novice =
      (Ok warnings, self') ∧
    (warnings = [] ↔
     td_match ToyLink.labels ≠ [] ∨ td_distinct ToyLink.labels ≠ []) ∧
    td_match (training_pairs self') =
      td_match (training_pairs ToyLink.novice) ++ td_match ToyLink.labels ∧
    td_distinct (training_pairs self') =
      td_distinct (training_pairs ToyLink.novice) ++
      td_distinct ToyLink.labels ∧
    am_matching self' = am_matching ToyLink.novice ∧
    active_learner self' = None.
Proof.
  destruct labels_first_pairs_valid as [Hmatch Hdistinct].
  split; [reflexivity |]. split; [exact Hmatch |].
  split; [exact Hdistinct |]. split; [reflexivity |].
  exact (ActiveMatching_mark_pairs_checks_first ToyLink.novice ToyLink.labels
           Byte.x00 eq_refl Hmatch Hdistinct).
Defined.

Lemma ActiveMatching_mark_pairs_invalid_witness :
  let first_pair : TrainingExample := (record "Pat" "Oslo", ∅) in
  let labeled_pairs := {| td_distinct := []; td_match := [first_pair] |} in
  let e := ValueError "Records do not line up with data model" in
  data_model (am_matching ToyLink.novice) = Some Byte.x00 ∧
  td_match labeled_pairs = first_pair :: [] ∧
  (datamodel_check Byte.x00 first_pair.1 = Raise e ∨
   datamodel_check Byte.x00 first_pair.1 = Ok tt ∧
   datamodel_check Byte.x00 first_pair.2 = Raise e) ∧
  ActiveMatching_mark_pairs labeled_pairs ToyLink.novice =
    (Raise e, ToyLink.novice).
Proof.
  intros first_pair labeled_pairs e.
  split; [reflexivity |]. split; [reflexivity |].
  split; [right; split; reflexivity |].
  exact (ActiveMatching_mark_pairs_invalid ToyLink.novice labeled_pairs
           Byte.x00 first_pair [] e eq_refl eq_refl
           (or_intror (conj eq_refl eq_refl))).
Defined.

End NameInstance.
